(** * ynoserver: the session hub and the minigame table

    A shallow embedding of the session hub ([Session.addClient],
    [Session.processMsgs], [Session.processMsg]) and of [getRoomMinigames],
    with the properties of the hub's admission, framing and dispatch proved
    over it.

    Conventions.
    - A Go [string] is a [string] (a sequence of 8-bit characters); a [[]byte]
      is a [list byte]; [string(data)] is [string_of_list_byte].
    - A Go [int] is a [Z]; where the code does arithmetic on it ([lastId++])
      the 64-bit wrap-around is written out.
    - An [error] is the message given to [errors.New]; a nil error is [None].
    - [clients] (a [sync.Map] keyed by uuid) is a [gmap string SessionClient].
    - The hub's effects are threaded through a state monad over [World]. A
      call of [addClient] is a function of the world it starts in; what
      admissions that overlap can do is modelled apart, with the call cut
      at its accesses to the registry ([conc_step]). *)

From Stdlib Require Import ZArith NArith List.
From Stdlib.Strings Require Import Ascii String Byte.
From stdpp Require Import gmap strings list fin_maps.

Local Open Scope string_scope.
Local Open Scope list_scope.
Local Open Scope Z_scope.

Set Default Proof Using "Type".

(** ** The Go standard library functions the hub uses *)

Module utf8.

(** The value of a byte, 0..255. *)
Definition val (b : byte) : Z := Z.of_N (Byte.to_N b).

(** [RuneSelf]: bytes below it are single-byte runes. *)
Definition RuneSelf : Z := 0x80.
(** [locb], [hicb]: the range of a continuation byte. *)
Definition locb : Z := 0x80.
Definition hicb : Z := 0xBF.

(** [first[b]] together with [acceptRanges[x>>4]]: for a leading byte, the
    length of the sequence and the range its second byte must lie in;
    [None] is the table's [xx] (an invalid leading byte). *)
Definition first (b : Z) : option (nat * (Z * Z)) :=
  if (0xC2 <=? b) && (b <=? 0xDF) then Some (2%nat, (locb, hicb))
  else if b =? 0xE0 then Some (3%nat, (0xA0, hicb))
  else if (0xE1 <=? b) && (b <=? 0xEC) then Some (3%nat, (locb, hicb))
  else if b =? 0xED then Some (3%nat, (locb, 0x9F))
  else if (0xEE <=? b) && (b <=? 0xEF) then Some (3%nat, (locb, hicb))
  else if b =? 0xF0 then Some (4%nat, (0x90, hicb))
  else if (0xF1 <=? b) && (b <=? 0xF3) then Some (4%nat, (locb, hicb))
  else if b =? 0xF4 then Some (4%nat, (locb, 0x8F))
  else None.

Definition within (lo hi : Z) (c : byte) : bool :=
  (lo <=? val c) && (val c <=? hi).

(** [utf8.Valid]: every byte starts or continues a well-formed sequence. *)
Fixpoint Valid (p : list byte) : bool :=
  match p with
  | [] => true
  | pi :: rest =>
      if val pi <? RuneSelf then Valid rest
      else
        match first (val pi) with
        | None => false
        | Some (size, (lo, hi)) =>
            match size, rest with
            | 2%nat, c1 :: r => within lo hi c1 && Valid r
            | 3%nat, c1 :: c2 :: r =>
                within lo hi c1 && within locb hicb c2 && Valid r
            | 4%nat, c1 :: c2 :: c3 :: r =>
                within lo hi c1 && within locb hicb c2
                && within locb hicb c3 && Valid r
            | _, _ => false
            end
        end
  end.

(** The slices [strings.Split] cuts a string into when the separator is
    empty ([explode]): one per UTF-8 sequence, a byte that starts no
    well-formed sequence being sliced on its own. *)
Fixpoint explode (s : list byte) : list (list byte) :=
  match s with
  | [] => []
  | b0 :: rest =>
      if val b0 <? RuneSelf then [b0] :: explode rest
      else
        match first (val b0) with
        | None => [b0] :: explode rest
        | Some (size, (lo, hi)) =>
            match size, rest with
            | 2%nat, c1 :: r =>
                if within lo hi c1 then [b0; c1] :: explode r
                else [b0] :: explode rest
            | 3%nat, c1 :: c2 :: r =>
                if within lo hi c1 && within locb hicb c2
                then [b0; c1; c2] :: explode r
                else [b0] :: explode rest
            | 4%nat, c1 :: c2 :: c3 :: r =>
                if within lo hi c1 && within locb hicb c2
                   && within locb hicb c3
                then [b0; c1; c2; c3] :: explode r
                else [b0] :: explode rest
            | _, _ => [b0] :: explode rest
            end
        end
  end.

End utf8.

Module strings.

(** [strings.HasPrefix s sep]. *)
Fixpoint HasPrefix (s sep : string) : bool :=
  match sep, s with
  | EmptyString, _ => true
  | String _ _, EmptyString => false
  | String a sep', String b s' => Ascii.eqb a b && HasPrefix s' sep'
  end.

(** [strings.Index s sep]: the offset of the first occurrence of [sep] in
    [s]; [None] is Go's -1. *)
Fixpoint Index (s sep : string) : option nat :=
  if HasPrefix s sep then Some 0%nat
  else match s with
       | EmptyString => None
       | String _ s' => S <$> Index s' sep
       end.

(** [s[n:]]. *)
Fixpoint from (n : nat) (s : string) : string :=
  match n, s with
  | O, _ => s
  | S _, EmptyString => EmptyString
  | S n', String _ s' => from n' s'
  end.

(** The loop of [genSplit] for a non-empty separator: [n] bounds the number
    of cuts, and the loop stops at the first [Index] that finds nothing. *)
Fixpoint genSplit (n : nat) (s sep : string) : list string :=
  match n with
  | O => [s]
  | S n' =>
      match Index s sep with
      | None => [s]
      | Some m =>
          substring 0 m s :: genSplit n' (from (m + String.length sep) s) sep
      end
  end.

(** [strings.Split s sep]. An empty separator explodes [s] into its UTF-8
    sequences. Otherwise Go cuts at most [Count(s, sep)] times, clamped to
    [len(s)]; as the loop also stops when no occurrence is left, the clamp
    [len(s)] alone bounds it here. *)
Definition Split (s sep : string) : list string :=
  match sep with
  | EmptyString =>
      string_of_list_byte <$> utf8.explode (list_byte_of_string s)
  | String _ _ => genSplit (String.length s) s sep
  end.

End strings.

(** ** The minigame table (server/minigames.go) *)

Record Minigame := {
  Id : string;
  VarId : Z;
  InitialVarSync : bool;
  SwitchId : Z;
  SwitchValue : bool;
  Dev : bool
}.

(** The part of [serverConfig] the table reads. *)
Record Config := { GameName : string }.

(** [append(minigames, &Minigame{...})] on the nil slice: fields that the
    literal leaves out take their zero value. *)
Definition getRoomMinigames (serverConfig : Config) (roomId : Z) : list Minigame :=
  let minigames : list Minigame := [] in
  if String.eqb (GameName serverConfig) "yume" then
    if roomId =? 155 then
      minigames ++ [ {| Id := "nasu"; VarId := 88; InitialVarSync := false;
                        SwitchId := 215; SwitchValue := false; Dev := false |} ]
    else minigames
  else if String.eqb (GameName serverConfig) "2kki" then
    if roomId =? 102 then
      minigames ++ [ {| Id := "rby"; VarId := 1010; InitialVarSync := true;
                        SwitchId := 0; SwitchValue := false; Dev := false |} ]
    else if roomId =? 618 then
      minigames ++ [ {| Id := "rby_ex"; VarId := 79; InitialVarSync := true;
                        SwitchId := 0; SwitchValue := false; Dev := false |} ]
    else if roomId =? 344 then
      minigames ++ [ {| Id := "fuji_ex"; VarId := 3218; InitialVarSync := false;
                        SwitchId := 3219; SwitchValue := true; Dev := false |} ]
    else minigames
  else minigames.

(** ** The session hub (session.go) *)

(** An [error] value: the message it was made from. *)
Inductive error := errors_New (msg : string).

(** The values the hub passes to [sendMsg(segments ...any)]. *)
Inductive any :=
| any_string (s : string)
| any_int (n : Z)
| any_bool (b : bool).

(** [make(chan []byte, n)]: the handle of a buffered channel, by its capacity. *)
Record Chan := make_chan { chan_cap : Z }.

(** The three tasks an admission starts with [go]. *)
Inductive Task := msgProcessor | msgWriter | msgReader.

(** Go's [int] on a 64-bit target: the value of [z] after wrap-around. *)
Definition wrap_int (z : Z) : Z := (z + 2 ^ 63) mod 2 ^ 64 - 2 ^ 63.

Section Hub.

(** [*websocket.Conn]: the connection handle. *)
Variable Conn : Type.
(** The stores behind the hub's collaborators: the identity store and
    whatever the message handlers keep. *)
Variable Ext : Type.

(** The fields of [SessionClient] that the hub reads and writes. *)
Record SessionClient := {
  conn : Conn;
  ip : string;
  send : Chan;
  receive : Chan;
  uuid : string;
  name : string;
  rank : Z;
  badge : string;
  account : bool;
  muted : bool;
  id : Z;
  spriteName : string;
  spriteIndex : Z;
  systemName : string
}.

(** [type Session struct { lastId int }]. *)
Record Session := { lastId : Z }.

(** What the hub does to its surroundings, in the order it does it: a line
    of the error log, a line of the request log, a frame handed to a
    client's [sendMsg], a task started with [go]. *)
Inductive Event :=
| Ev_writeErrLog (ip category msg : string)
| Ev_writeLog (ip category msg : string) (status : Z)
| Ev_sendMsg (c : SessionClient) (segments : list any)
| Ev_go (c : SessionClient) (t : Task).

(** The package-level variables [clients] and [session], the trace of
    effects and the collaborators' stores. *)
Record World := {
  clients : gmap string SessionClient;
  session : Session;
  trace : list Event;
  ext : Ext
}.

(** *** The state monad the hub runs in *)

Definition M (A : Type) : Type := World -> A * World.

Definition ret {A} (a : A) : M A := fun w => (a, w).

Definition bind {A B} (m : M A) (k : A -> M B) : M B :=
  fun w => let (a, w') := m w in k a w'.

Notation "'let*' x ':=' m 'in' k" := (bind m (fun x => k))
  (at level 10, x pattern, m at level 100, k at level 200).
Notation "m ;; k" := (bind m (fun _ => k))
  (at level 100, k at level 200, right associativity).

Definition emit (e : Event) : M unit :=
  fun w => (tt, {| clients := clients w; session := session w;
                   trace := trace w ++ [e]; ext := ext w |}).

(** A collaborator that works on its own store only. *)
Definition on_ext {A} (f : Ext -> A * Ext) : M A :=
  fun w => let (a, x) := f (ext w) in
           (a, {| clients := clients w; session := session w;
                  trace := trace w; ext := x |}).

Definition writeErrLog (ip category msg : string) : M unit :=
  emit (Ev_writeErrLog ip category msg).
Definition writeLog (ip category msg : string) (status : Z) : M unit :=
  emit (Ev_writeLog ip category msg status).
Definition sendMsg (c : SessionClient) (segments : list any) : M unit :=
  emit (Ev_sendMsg c segments).
Definition go (c : SessionClient) (t : Task) : M unit :=
  emit (Ev_go c t).

(** [clients.Load(k)]. *)
Definition clients_Load (k : string) : M (option SessionClient) :=
  fun w => (clients w !! k, w).

(** [clients.Store(k, c)]. *)
Definition clients_Store (k : string) (c : SessionClient) : M unit :=
  fun w => (tt, {| clients := <[k := c]> (clients w); session := session w;
                   trace := trace w; ext := ext w |}).

(** [clients.Range(f)] with an [f] that always returns true, folding what
    [f] does to its captured variable: every entry is visited once, in an
    order [sync.Map] does not fix. *)
Definition clients_Range {B} (f : string -> SessionClient -> B -> B) (b : B) : M B :=
  fun w => (map_fold f b (clients w), w).

(** [client.id = s.lastId; s.lastId++]. *)
Definition next_id : M Z :=
  fun w => (lastId (session w),
            {| clients := clients w;
               session := {| lastId := wrap_int (lastId (session w) + 1) |};
               trace := trace w; ext := ext w |}).

(** *** The collaborators, which live in other files *)

(** The identity store: [(uuid, name, rank, badge, banned, muted)] of a
    token, [(uuid, banned, muted)] of an address, and
    [(spriteName, spriteIndex, systemName)] of a uuid. *)
Variable getPlayerDataFromToken :
  string -> Ext -> (string * string * Z * string * bool * bool) * Ext.
Variable getOrCreatePlayerData : string -> Ext -> (string * bool * bool) * Ext.
Variable getPlayerGameData : string -> Ext -> (string * Z * string) * Ext.

(** The message handlers: each may do anything to the world and reports an
    error or nil. *)
Variable handleI : SessionClient -> M (option error).
Variable handleName : list string -> SessionClient -> M (option error).
Variable handlePloc : list string -> SessionClient -> M (option error).
Variable handleGSay : list string -> SessionClient -> M (option error).
Variable handlePSay : list string -> SessionClient -> M (option error).
Variable handlePt : SessionClient -> M (option error).
Variable handleEp : SessionClient -> M (option error).
Variable handleE : SessionClient -> M (option error).

(** The field and message delimiters, constants of another file. *)
Variable delim : string.
Variable mdelim : string.

(** *** addClient *)

(** The assignments [addClient] makes to the fields of [client]. *)
Definition set_token_data (c : SessionClient)
    (d : string * string * Z * string * bool) : SessionClient :=
  let '(uuid', name', rank', badge', muted') := d in
  {| conn := conn c; ip := ip c; send := send c; receive := receive c;
     uuid := uuid'; name := name'; rank := rank'; badge := badge';
     account := account c; muted := muted'; id := id c;
     spriteName := spriteName c; spriteIndex := spriteIndex c;
     systemName := systemName c |}.

Definition set_account (c : SessionClient) (b : bool) : SessionClient :=
  {| conn := conn c; ip := ip c; send := send c; receive := receive c;
     uuid := uuid c; name := name c; rank := rank c; badge := badge c;
     account := b; muted := muted c; id := id c;
     spriteName := spriteName c; spriteIndex := spriteIndex c;
     systemName := systemName c |}.

Definition set_ip_data (c : SessionClient) (d : string * bool) : SessionClient :=
  let '(uuid', muted') := d in
  {| conn := conn c; ip := ip c; send := send c; receive := receive c;
     uuid := uuid'; name := name c; rank := rank c; badge := badge c;
     account := account c; muted := muted'; id := id c;
     spriteName := spriteName c; spriteIndex := spriteIndex c;
     systemName := systemName c |}.

Definition set_badge (c : SessionClient) (b : string) : SessionClient :=
  {| conn := conn c; ip := ip c; send := send c; receive := receive c;
     uuid := uuid c; name := name c; rank := rank c; badge := b;
     account := account c; muted := muted c; id := id c;
     spriteName := spriteName c; spriteIndex := spriteIndex c;
     systemName := systemName c |}.

Definition set_id (c : SessionClient) (n : Z) : SessionClient :=
  {| conn := conn c; ip := ip c; send := send c; receive := receive c;
     uuid := uuid c; name := name c; rank := rank c; badge := badge c;
     account := account c; muted := muted c; id := n;
     spriteName := spriteName c; spriteIndex := spriteIndex c;
     systemName := systemName c |}.

Definition set_game_data (c : SessionClient) (d : string * Z * string) : SessionClient :=
  let '(spriteName', spriteIndex', systemName') := d in
  {| conn := conn c; ip := ip c; send := send c; receive := receive c;
     uuid := uuid c; name := name c; rank := rank c; badge := badge c;
     account := account c; muted := muted c; id := id c;
     spriteName := spriteName'; spriteIndex := spriteIndex';
     systemName := systemName' |}.

(** [&SessionClient{conn: conn, ip: ip, send: make(chan []byte, 16),
    receive: make(chan []byte, 16)}]: the other fields are zero. *)
Definition new_client (conn0 : Conn) (ip0 : string) : SessionClient :=
  {| conn := conn0; ip := ip0; send := make_chan 16; receive := make_chan 16;
     uuid := ""; name := ""; rank := 0; badge := "";
     account := false; muted := false; id := 0;
     spriteName := ""; spriteIndex := 0; systemName := "" |}.

(** Lines 63-79: the client and the [banned] flag once the identity is
    resolved, by token when one is given and it yields a uuid, by address
    otherwise. *)
Definition resolveIdentity (conn0 : Conn) (ip0 token : string)
    : M (SessionClient * bool) :=
  let client := new_client conn0 ip0 in
  let banned := false in
  let* (client, banned) :=
    (if negb (String.eqb token "") then
       let* (uuid', name', rank', badge', banned', muted') :=
          on_ext (getPlayerDataFromToken token) in
       ret (set_token_data client (uuid', name', rank', badge', muted'), banned')
     else ret (client, banned)) in
  if negb (String.eqb (uuid client) "") then
    ret (set_account client true, banned)
  else
    let* (uuid', banned', muted') := on_ext (getOrCreatePlayerData ip0) in
    ret (set_ip_data client (uuid', muted'), banned').

(** The body of the [clients.Range] callback of lines 92-98. *)
Definition countSameIp (ip0 : string) (_ : string) (v : SessionClient) (sameIp : Z) : Z :=
  if String.eqb (ip v) ip0 then sameIp + 1 else sameIp.

(** Lines 81-124: the admission checks, and the registration when all
    pass. *)
Definition admission (client : SessionClient) (banned : bool) (ip0 : string) : M unit :=
  if banned then
    writeErrLog ip0 "session" "player is banned"
  else
    let* found := clients_Load (uuid client) in
    match found with
    | Some _ => writeErrLog ip0 "session" "session already exists for uuid"
    | None =>
        let* sameIp := clients_Range (countSameIp ip0) 0 in
        if 3 <=? sameIp then
          writeErrLog ip0 "session" "too many connections from ip"
        else
          let client :=
            if String.eqb (badge client) "" then set_badge client "null"
            else client in
          let* n := next_id in
          let client := set_id client n in
          let* d := on_ext (getPlayerGameData (uuid client)) in
          let client := set_game_data client d in
          clients_Store (uuid client) client ;;
          sendMsg client [any_string "s"; any_string (uuid client);
                          any_int (rank client); any_bool (account client);
                          any_string (badge client)] ;;
          go client msgProcessor ;;
          go client msgWriter ;;
          go client msgReader ;;
          writeLog ip0 "session" "connect" 200
    end.

Definition addClient (conn0 : Conn) (ip0 token : string) : M unit :=
  let* (client, banned) := resolveIdentity conn0 ip0 token in
  admission client banned ip0.

(** *** processMsg and processMsgs *)

(** Lines 167-189: the switch on the type tag. Only the [pt] case does more
    than call its handler. *)
Definition dispatch (msgFields : list string) (tag : string)
    (sender : SessionClient) : M (option error) :=
  if String.eqb tag "i" then handleI sender
  else if String.eqb tag "name" then handleName msgFields sender
  else if String.eqb tag "ploc" then handlePloc msgFields sender
  else if String.eqb tag "gsay" then handleGSay msgFields sender
  else if String.eqb tag "psay" then handlePSay msgFields sender
  else if String.eqb tag "pt" then
    let* err := handlePt sender in
    match err with
    | Some _ =>
        sendMsg sender [any_string "pt"; any_string "null"] ;;
        ret err
    | None => ret err
    end
  else if String.eqb tag "ep" then handleEp sender
  else if String.eqb tag "e" then handleE sender
  else ret (Some (errors_New "unknown message type")).

Definition processMsg (msgStr : string) (sender : SessionClient)
    : M (option error) :=
  let err : option error := None in
  let msgFields := strings.Split msgStr delim in
  match msgFields with
  | [] => ret err
  | tag :: _ =>
      let* err := dispatch msgFields tag sender in
      match err with
      | Some _ => ret err
      | None =>
          writeLog (ip sender) "session" msgStr 200 ;;
          ret None
      end
  end.

(** Lines 151-155: the loop over the frames of a buffer. *)
Fixpoint processMsgs_loop (msgs : list string) (sender : SessionClient)
    (errs : list error) : M (list error) :=
  match msgs with
  | [] => ret errs
  | msgStr :: msgs' =>
      let* err := processMsg msgStr sender in
      match err with
      | Some e => processMsgs_loop msgs' sender (errs ++ [e])
      | None => processMsgs_loop msgs' sender errs
      end
  end.

(** The loop of lines 140-144 returns at the first byte below 32; which byte
    it was does not show in the result. *)
Definition has_control_byte (data : list byte) : bool :=
  existsb (fun v => utf8.val v <? 32) data.

Definition processMsgs (sender : SessionClient) (data : list byte)
    : M (list error) :=
  let errs : list error := [] in
  if 4096 <? Z.of_nat (length data) then
    ret (errs ++ [errors_New "bad request size"])
  else if has_control_byte data then
    ret (errs ++ [errors_New "bad byte sequence"])
  else if negb (utf8.Valid data) then
    ret (errs ++ [errors_New "invalid UTF-8"])
  else
    processMsgs_loop (strings.Split (string_of_list_byte data) mdelim) sender errs.

(** *** The steps that change the registry *)

(** Modelled from the spec: the teardown of a connection, which lives with the
    reader and writer tasks in another file, "must remove the identifier from
    the Client Registry". *)
Definition teardown (k : string) : M unit :=
  fun w => (tt, {| clients := delete k (clients w); session := session w;
                   trace := trace w; ext := ext w |}).

(** One admission or one teardown, for admissions that run one after the
    other: each call of [addClient] ends before the next begins. The program
    does not enforce this ([addClient] takes no lock); [conc_step] below has
    the admissions that overlap, and [reachable_solo] shows that the runs
    here are among its runs. *)
Inductive hub_step : World -> World -> Prop :=
| step_addClient conn0 ip0 token w :
    hub_step w (addClient conn0 ip0 token w).2
| step_teardown k w :
    hub_step w (teardown k w).2.

(** The worlds the hub can be in: it starts with an empty registry. *)
Inductive reachable : World -> Prop :=
| reachable_init w : clients w = ∅ -> reachable w
| reachable_step w w' : reachable w -> hub_step w w' -> reachable w'.

(** The number of registered clients whose address is [ip0], as the admission
    counts them. *)
Definition sameIpCount (ip0 : string) (m : gmap string SessionClient) : Z :=
  map_fold (countSameIp ip0) 0 m.

(** ** Properties of the hub *)

(** *** The state monad *)

Lemma emit_spec e w :
  emit e w = (tt, {| clients := clients w; session := session w;
                     trace := trace w ++ [e]; ext := ext w |}).
Proof. reflexivity. Qed.

(** *** Resolving the identity touches the collaborators' store only *)

Lemma resolveIdentity_frame conn0 ip0 token w :
  clients (resolveIdentity conn0 ip0 token w).2 = clients w
  /\ session (resolveIdentity conn0 ip0 token w).2 = session w
  /\ trace (resolveIdentity conn0 ip0 token w).2 = trace w
  /\ ip (resolveIdentity conn0 ip0 token w).1.1 = ip0.
Proof.
  unfold resolveIdentity, bind, on_ext, ret.
  destruct (negb (String.eqb token "")); simpl.
  - destruct (getPlayerDataFromToken token (ext w)) as [[[[[[u n] r] b] bn] m] x].
    simpl. destruct (negb (String.eqb u "")); simpl; [done|].
    destruct (getOrCreatePlayerData ip0 x) as [[[u' b'] m'] x']. done.
  - destruct (getOrCreatePlayerData ip0 (ext w)) as [[[u' b'] m'] x']. done.
Qed.

Lemma resolveIdentity_inv conn0 ip0 token w client banned w1 :
  resolveIdentity conn0 ip0 token w = ((client, banned), w1) ->
  clients w1 = clients w /\ session w1 = session w /\ trace w1 = trace w
  /\ ip client = ip0.
Proof.
  intros H. pose proof (resolveIdentity_frame conn0 ip0 token w) as F.
  rewrite H in F. exact F.
Qed.

(** *** The four ways through the admission checks *)

Lemma admission_banned client ip0 w :
  admission client true ip0 w
  = writeErrLog ip0 "session" "player is banned" w.
Proof. reflexivity. Qed.

Lemma admission_duplicate client ip0 w :
  is_Some (clients w !! uuid client) ->
  admission client false ip0 w
  = writeErrLog ip0 "session" "session already exists for uuid" w.
Proof.
  intros [c0 Hc]. unfold admission, bind, clients_Load. now rewrite Hc.
Qed.

Lemma admission_ip_limit client ip0 w :
  clients w !! uuid client = None ->
  3 <= sameIpCount ip0 (clients w) ->
  admission client false ip0 w
  = writeErrLog ip0 "session" "too many connections from ip" w.
Proof.
  intros Hc Hn. unfold admission, bind, clients_Load, clients_Range.
  rewrite Hc. fold (sameIpCount ip0 (clients w)).
  now destruct (Z.leb_spec 3 (sameIpCount ip0 (clients w))); [|lia].
Qed.

(** The client as the admission registers it: the badge normalised, the id
    taken from the counter, the game data fetched. *)
Definition registered (client : SessionClient) (w : World) : SessionClient :=
  set_game_data
    (set_id (if String.eqb (badge client) "" then set_badge client "null"
             else client)
            (lastId (session w)))
    (getPlayerGameData (uuid client) (ext w)).1.

Lemma uuid_registered client w : uuid (registered client w) = uuid client.
Proof.
  unfold registered. destruct (getPlayerGameData _ _) as [[[a b] c] x].
  simpl. now destruct (String.eqb (badge client) "").
Qed.

Lemma ip_registered client w : ip (registered client w) = ip client.
Proof.
  unfold registered. destruct (getPlayerGameData _ _) as [[[a b] c] x].
  simpl. now destruct (String.eqb (badge client) "").
Qed.

Lemma admission_pass client ip0 w :
  clients w !! uuid client = None ->
  sameIpCount ip0 (clients w) < 3 ->
  let c := registered client w in
  admission client false ip0 w
  = (tt, {| clients := <[uuid client := c]> (clients w);
            session := {| lastId := wrap_int (lastId (session w) + 1) |};
            trace := trace w ++
              [Ev_sendMsg c [any_string "s"; any_string (uuid c);
                             any_int (rank c); any_bool (account c);
                             any_string (badge c)];
               Ev_go c msgProcessor; Ev_go c msgWriter; Ev_go c msgReader;
               Ev_writeLog ip0 "session" "connect" 200];
            ext := (getPlayerGameData (uuid client) (ext w)).2 |}).
Proof.
  intros Hc Hn c. unfold admission, bind, clients_Load, clients_Range.
  rewrite Hc. fold (sameIpCount ip0 (clients w)).
  destruct (Z.leb_spec 3 (sameIpCount ip0 (clients w))); [lia|].
  subst c. unfold registered, next_id, on_ext, clients_Store, sendMsg, go,
    writeLog, emit. simpl.
  destruct (String.eqb (badge client) ""); simpl;
    destruct (getPlayerGameData (uuid client) (ext w)) as [[[a b] d] x]; simpl;
    rewrite <- !app_assoc; reflexivity.
Qed.

(** Every rejection leaves one line in the error log and nothing else. *)
Lemma addClient_rejected conn0 ip0 token w client banned w1 :
  resolveIdentity conn0 ip0 token w = ((client, banned), w1) ->
  banned = true \/ is_Some (clients w !! uuid client)
  \/ 3 <= sameIpCount ip0 (clients w) ->
  exists msg,
    addClient conn0 ip0 token w = writeErrLog ip0 "session" msg w1
    /\ msg = (if banned then "player is banned"
              else match clients w !! uuid client with
                   | Some _ => "session already exists for uuid"
                   | None => "too many connections from ip"
                   end).
Proof.
  intros Hr Hrej.
  destruct (resolveIdentity_inv _ _ _ _ _ _ _ Hr) as (Hcl & _ & _ & _).
  unfold addClient, bind. rewrite Hr.
  destruct banned.
  - eexists; split; [apply admission_banned | reflexivity].
  - destruct (clients w !! uuid client) as [c0|] eqn:Hc.
    + eexists; split; [|reflexivity].
      apply admission_duplicate. rewrite Hcl, Hc. eauto.
    + eexists; split; [|reflexivity].
      destruct Hrej as [?|[[? ?]|Hn]]; try discriminate.
      apply admission_ip_limit; rewrite Hcl; assumption.
Qed.

(** An admission either leaves the registry as it is or adds, under a key
    that was free, a client with that key as uuid and the connection's
    address, and then fewer than three clients had that address. *)
Lemma addClient_clients conn0 ip0 token w :
  clients (addClient conn0 ip0 token w).2 = clients w
  \/ exists c,
       clients w !! uuid c = None /\ ip c = ip0
       /\ sameIpCount ip0 (clients w) < 3
       /\ clients (addClient conn0 ip0 token w).2 = <[uuid c := c]> (clients w).
Proof.
  destruct (resolveIdentity conn0 ip0 token w) as [[client banned] w1] eqn:Hr.
  destruct (resolveIdentity_inv _ _ _ _ _ _ _ Hr) as (Hcl & _ & _ & Hip).
  destruct banned; [left|].
  { destruct (addClient_rejected _ _ _ _ _ _ _ Hr) as (msg & -> & _); auto. }
  destruct (clients w !! uuid client) as [c0|] eqn:Hc; [left|].
  { destruct (addClient_rejected _ _ _ _ _ _ _ Hr) as (msg & -> & _); eauto. }
  destruct (Z.le_gt_cases 3 (sameIpCount ip0 (clients w))) as [Hn|Hn]; [left|right].
  { destruct (addClient_rejected _ _ _ _ _ _ _ Hr) as (msg & -> & _); auto. }
  exists (registered client w1).
  rewrite uuid_registered, ip_registered. repeat split; try assumption.
  unfold addClient, bind. rewrite Hr.
  rewrite admission_pass by (rewrite Hcl; assumption). simpl. now rewrite Hcl.
Qed.

(** *** Counting the clients of an address *)

Lemma countSameIp_comm ip0 (j1 j2 : string) z1 z2 y :
  countSameIp ip0 j1 z1 (countSameIp ip0 j2 z2 y)
  = countSameIp ip0 j2 z2 (countSameIp ip0 j1 z1 y).
Proof.
  unfold countSameIp.
  destruct (String.eqb (ip z1) ip0), (String.eqb (ip z2) ip0); reflexivity.
Qed.

Lemma sameIpCount_empty ip0 : sameIpCount ip0 ∅ = 0.
Proof. unfold sameIpCount. apply map_fold_empty. Qed.

Lemma sameIpCount_insert ip0 k c (m : gmap string SessionClient) :
  m !! k = None ->
  sameIpCount ip0 (<[k := c]> m) = countSameIp ip0 k c (sameIpCount ip0 m).
Proof.
  intros Hk. unfold sameIpCount. apply map_fold_insert_L; [|assumption].
  intros. apply countSameIp_comm.
Qed.

Lemma sameIpCount_delete ip0 k (m : gmap string SessionClient) :
  sameIpCount ip0 (delete k m) <= sameIpCount ip0 m.
Proof.
  destruct (m !! k) as [x|] eqn:Hk.
  - unfold sameIpCount at 2.
    rewrite (map_fold_delete_L _ _ k x m); [|intros; apply countSameIp_comm|assumption].
    fold (sameIpCount ip0 (delete k m)). unfold countSameIp.
    destruct (String.eqb (ip x) ip0); lia.
  - rewrite delete_id by assumption. lia.
Qed.

(** *** Invariants of the registry *)


(** An admission never replaces a registered client. *)
Lemma addClient_keeps conn0 ip0 token w k c :
  clients w !! k = Some c ->
  clients (addClient conn0 ip0 token w).2 !! k = Some c.
Proof.
  intros Hk.
  destruct (addClient_clients conn0 ip0 token w) as [E|(c0 & Hc0 & _ & _ & E)];
    rewrite E; [assumption|].
  rewrite lookup_insert_ne; [assumption|]. intros <-. congruence.
Qed.

(** No address ever has more than three registered clients. *)
Lemma reachable_ip_limit w :
  reachable w -> forall ip0, sameIpCount ip0 (clients w) <= 3.
Proof.
  induction 1 as [w H0|w w' Hw IH Hstep]; intros ip1.
  - rewrite H0, sameIpCount_empty. lia.
  - destruct Hstep as [conn0 ip0 token w|k0 w].
    + destruct (addClient_clients conn0 ip0 token w)
        as [E|(c0 & Hc0 & Hip & Hn & E)]; rewrite E; [apply IH|].
      rewrite sameIpCount_insert by assumption. unfold countSameIp.
      destruct (String.eqb_spec (ip c0) ip1) as [Heq|_]; [|apply IH].
      rewrite Hip in Heq. subst ip1. lia.
    + simpl. etransitivity; [apply sameIpCount_delete|apply IH].
Qed.

(** *** The claims about admission *)

(** C2. When the resolved identity is banned, [addClient] inserts nothing into
    the registry and its only effect is one line of the error log: the trace
    gains no frame sent to the client (so no hello frame) and no started
    task. *)
Theorem addClient_banned_rejected conn0 ip0 token w client w1 :
  resolveIdentity conn0 ip0 token w = ((client, true), w1) ->
  clients (addClient conn0 ip0 token w).2 = clients w
  /\ trace (addClient conn0 ip0 token w).2
     = trace w ++ [Ev_writeErrLog ip0 "session" "player is banned"]
  /\ (forall c segs, Ev_sendMsg c segs ∈ trace (addClient conn0 ip0 token w).2 ->
                     Ev_sendMsg c segs ∈ trace w)
  /\ (forall c t, Ev_go c t ∈ trace (addClient conn0 ip0 token w).2 ->
                  Ev_go c t ∈ trace w).
Proof.
  intros Hr.
  destruct (resolveIdentity_inv _ _ _ _ _ _ _ Hr) as (Hcl & _ & Htr & _).
  destruct (addClient_rejected _ _ _ _ _ _ _ Hr) as (msg & -> & ->); [auto|].
  simpl. rewrite Hcl, Htr. split; [|split; [|split]].
  - reflexivity.
  - reflexivity.
  - intros c segs [?|Hin%list_elem_of_singleton]%elem_of_app; [assumption|discriminate].
  - intros c t [?|Hin%list_elem_of_singleton]%elem_of_app; [assumption|discriminate].
Qed.


(** The address limit for admissions that run one after the other. An
    admission from an address that three or more registered clients already
    have is rejected before anything is registered: the registry is as
    before and the only effect is one line of the error log. And in every
    world that admissions running one after the other can reach, no address
    has more than three registered clients. *)
Theorem addClient_ip_limit :
  (forall conn0 ip0 token w,
      3 <= sameIpCount ip0 (clients w) ->
      clients (addClient conn0 ip0 token w).2 = clients w
      /\ exists msg,
           trace (addClient conn0 ip0 token w).2
           = trace w ++ [Ev_writeErrLog ip0 "session" msg])
  /\ (forall conn0 ip0 token w client w1,
        resolveIdentity conn0 ip0 token w = ((client, false), w1) ->
        clients w !! uuid client = None ->
        3 <= sameIpCount ip0 (clients w) ->
        trace (addClient conn0 ip0 token w).2
        = trace w ++ [Ev_writeErrLog ip0 "session" "too many connections from ip"])
  /\ (forall w, reachable w -> forall ip0, sameIpCount ip0 (clients w) <= 3).
Proof.
  split; [|split].
  - intros conn0 ip0 token w Hn.
    destruct (resolveIdentity conn0 ip0 token w) as [[client banned] w1] eqn:Hr.
    destruct (resolveIdentity_inv _ _ _ _ _ _ _ Hr) as (Hcl & _ & Htr & _).
    destruct (addClient_rejected _ _ _ _ _ _ _ Hr) as (msg & -> & _); [auto|].
    simpl. rewrite Hcl, Htr. eauto.
  - intros conn0 ip0 token w client w1 Hr Hc Hn.
    destruct (resolveIdentity_inv _ _ _ _ _ _ _ Hr) as (Hcl & _ & Htr & _).
    destruct (addClient_rejected _ _ _ _ _ _ _ Hr) as (msg & -> & ->); [auto|].
    rewrite Hc. simpl. now rewrite Htr.
  - apply reachable_ip_limit.
Qed.

(** C8. When all checks pass, [addClient] registers the client and then hands
    it one frame, ["s", uuid, rank, account, badge], before anything else it
    does; the badge is the resolved one, or "null" when that was empty. [w2]
    is the world right after [clients.Store]. *)
Theorem addClient_hello conn0 ip0 token w client w1 :
  resolveIdentity conn0 ip0 token w = ((client, false), w1) ->
  clients w !! uuid client = None ->
  sameIpCount ip0 (clients w) < 3 ->
  exists c w2,
    uuid c = uuid client /\ rank c = rank client /\ account c = account client
    /\ badge c = (if String.eqb (badge client) "" then "null" else badge client)
    /\ clients w2 = <[uuid client := c]> (clients w)
    /\ trace w2 = trace w
    /\ addClient conn0 ip0 token w
       = (sendMsg c [any_string "s"; any_string (uuid client);
                     any_int (rank client); any_bool (account client);
                     any_string (badge c)] ;;
          go c msgProcessor ;; go c msgWriter ;; go c msgReader ;;
          writeLog ip0 "session" "connect" 200) w2
    /\ trace (addClient conn0 ip0 token w).2
       = trace w ++
         [Ev_sendMsg c [any_string "s"; any_string (uuid client);
                        any_int (rank client); any_bool (account client);
                        any_string (badge c)];
          Ev_go c msgProcessor; Ev_go c msgWriter; Ev_go c msgReader;
          Ev_writeLog ip0 "session" "connect" 200].
Proof.
  intros Hr Hc Hn.
  destruct (resolveIdentity_inv _ _ _ _ _ _ _ Hr) as (Hcl & Hse & Htr & _).
  set (c := registered client w1).
  assert (Hu : uuid c = uuid client) by apply uuid_registered.
  assert (Hrk : rank c = rank client).
  { subst c. unfold registered. destruct (getPlayerGameData _ _) as [[[a b] d] x].
    simpl. now destruct (String.eqb (badge client) ""). }
  assert (Hac : account c = account client).
  { subst c. unfold registered. destruct (getPlayerGameData _ _) as [[[a b] d] x].
    simpl. now destruct (String.eqb (badge client) ""). }
  assert (Hbd : badge c = if String.eqb (badge client) "" then "null" else badge client).
  { subst c. unfold registered. destruct (getPlayerGameData _ _) as [[[a b] d] x].
    simpl. now destruct (String.eqb (badge client) ""). }
  exists c,
    {| clients := <[uuid client := c]> (clients w1);
       session := {| lastId := wrap_int (lastId (session w1) + 1) |};
       trace := trace w1;
       ext := (getPlayerGameData (uuid client) (ext w1)).2 |}.
  assert (E : addClient conn0 ip0 token w = admission client false ip0 w1).
  { unfold addClient, bind. now rewrite Hr. }
  rewrite E, admission_pass by (rewrite Hcl; assumption).
  fold c. rewrite Hu, Hrk, Hac. simpl. rewrite Hcl, Htr.
  repeat split; try assumption.
  unfold bind, sendMsg, go, writeLog, emit. simpl.
  rewrite <- !app_assoc. reflexivity.
Qed.

(** C9. A rejected admission (banned, uuid already registered, or three
    clients of the address registered) leaves the registry and the [lastId]
    counter as they were. *)
Theorem addClient_rejected_hub_unchanged conn0 ip0 token w client banned w1 :
  resolveIdentity conn0 ip0 token w = ((client, banned), w1) ->
  banned = true \/ is_Some (clients w !! uuid client)
  \/ 3 <= sameIpCount ip0 (clients w) ->
  clients (addClient conn0 ip0 token w).2 = clients w
  /\ lastId (session (addClient conn0 ip0 token w).2) = lastId (session w).
Proof.
  intros Hr Hrej.
  destruct (resolveIdentity_inv _ _ _ _ _ _ _ Hr) as (Hcl & Hse & _ & _).
  destruct (addClient_rejected _ _ _ _ _ _ _ Hr Hrej) as (msg & -> & _).
  simpl. now rewrite Hcl, Hse.
Qed.

(** *** Splitting *)

Lemma explode_nil s : utf8.explode s = [] -> s = [].
Proof.
  destruct s as [|b0 rest]; [reflexivity|]. simpl.
  repeat case_match; discriminate.
Qed.

Lemma list_byte_of_string_nil s : list_byte_of_string s = [] -> s = "".
Proof. destruct s; [reflexivity|discriminate]. Qed.

(** [strings.Split] returns no field at all only for the empty string cut on
    the empty separator. *)
Lemma Split_nil s sep : strings.Split s sep = [] <-> s = "" /\ sep = "".
Proof.
  split.
  - destruct sep as [|a sep']; simpl.
    + intros H. apply fmap_nil_inv, explode_nil, list_byte_of_string_nil in H.
      auto.
    + destruct (String.length s); simpl; [discriminate|].
      destruct (strings.Index s (String a sep')); discriminate.
  - intros [-> ->]. reflexivity.
Qed.

(** *** The dispatcher *)

(** The type tags the switch of [processMsg] has a case for. *)
Definition known_tags : list string :=
  ["i"; "name"; "ploc"; "gsay"; "psay"; "pt"; "ep"; "e"].

Lemma dispatch_unknown msgFields tag sender w :
  tag ∉ known_tags ->
  dispatch msgFields tag sender w
  = (Some (errors_New "unknown message type"), w).
Proof.
  intros Hn. unfold dispatch.
  repeat match goal with
         | |- context [String.eqb tag ?s] =>
             destruct (String.eqb_spec tag s) as [->|_];
             [exfalso; apply Hn; unfold known_tags; rewrite !elem_of_cons;
              repeat (first [left; reflexivity | right])|]
         end.
  reflexivity.
Qed.

Lemma processMsg_unknown msgStr sender w tag rest :
  strings.Split msgStr delim = tag :: rest ->
  tag ∉ known_tags ->
  processMsg msgStr sender w = (Some (errors_New "unknown message type"), w).
Proof.
  intros Hs Hn. unfold processMsg, bind. rewrite Hs.
  now rewrite dispatch_unknown.
Qed.

(** With a separator that is not empty the first case of [processMsg] is
    never taken, and the empty frame is an unknown message. *)
Lemma processMsg_empty_frame sender w :
  delim <> "" ->
  processMsg "" sender w = (Some (errors_New "unknown message type"), w).
Proof.
  intros Hd. apply (processMsg_unknown _ _ _ "" []).
  - destruct delim; [congruence|reflexivity].
  - unfold known_tags. intros H.
    repeat (apply elem_of_cons in H as [H|H]; [discriminate H|]).
    now apply elem_of_nil in H.
Qed.

(** C1. A frame that splits into no field at all is a no-op for
    [processMsg]: no handler runs, nothing is logged, the world is as before,
    and the error returned is nil. *)
Theorem processMsg_no_fields msgStr sender w :
  strings.Split msgStr delim = [] ->
  processMsg msgStr sender w = (None, w).
Proof. intros Hs. unfold processMsg. now rewrite Hs. Qed.

Local Ltac handler_case h :=
  destruct h as [[?|] ?]; simpl; intros [= <- <-];
  repeat (first [left; split; reflexivity | right]).

(** C7. When the handler of a [pt] frame returns an error, [processMsg] hands
    the sender the frame ["pt", "null"] and returns that error. For every
    other tag, an error of [processMsg] comes with exactly the world the
    tag's handler left (the world as it was, when the tag is unknown):
    [processMsg] sends nothing of its own. *)
Theorem processMsg_pt_error :
  (forall msgStr sender w rest e w1,
      strings.Split msgStr delim = "pt" :: rest ->
      handlePt sender w = (Some e, w1) ->
      processMsg msgStr sender w
      = (Some e, (sendMsg sender [any_string "pt"; any_string "null"] w1).2))
  /\ (forall msgStr sender w tag rest e w',
        strings.Split msgStr delim = tag :: rest ->
        tag <> "pt" ->
        processMsg msgStr sender w = (Some e, w') ->
        (tag = "i" /\ handleI sender w = (Some e, w'))
        \/ (tag = "name" /\ handleName (tag :: rest) sender w = (Some e, w'))
        \/ (tag = "ploc" /\ handlePloc (tag :: rest) sender w = (Some e, w'))
        \/ (tag = "gsay" /\ handleGSay (tag :: rest) sender w = (Some e, w'))
        \/ (tag = "psay" /\ handlePSay (tag :: rest) sender w = (Some e, w'))
        \/ (tag = "ep" /\ handleEp sender w = (Some e, w'))
        \/ (tag = "e" /\ handleE sender w = (Some e, w'))
        \/ ((tag ∉ known_tags) /\ e = errors_New "unknown message type" /\ w' = w)).
Proof.
  split.
  - intros msgStr sender w rest e w1 Hs Hh.
    unfold processMsg, bind. rewrite Hs. unfold dispatch. simpl.
    unfold bind. now rewrite Hh.
  - intros msgStr sender w tag rest e w' Hs Hpt.
    unfold processMsg, bind. rewrite Hs. unfold dispatch.
    destruct (String.eqb_spec tag "i") as [->|Hi];
      [handler_case (handleI sender w)|].
    destruct (String.eqb_spec tag "name") as [->|Hname];
      [handler_case (handleName ("name" :: rest) sender w)|].
    destruct (String.eqb_spec tag "ploc") as [->|Hploc];
      [handler_case (handlePloc ("ploc" :: rest) sender w)|].
    destruct (String.eqb_spec tag "gsay") as [->|Hgsay];
      [handler_case (handleGSay ("gsay" :: rest) sender w)|].
    destruct (String.eqb_spec tag "psay") as [->|Hpsay];
      [handler_case (handlePSay ("psay" :: rest) sender w)|].
    destruct (String.eqb_spec tag "pt") as [->|_]; [congruence|].
    destruct (String.eqb_spec tag "ep") as [->|Hep];
      [handler_case (handleEp sender w)|].
    destruct (String.eqb_spec tag "e") as [->|He];
      [handler_case (handleE sender w)|].
    simpl. intros [= <- <-]. do 7 right. repeat split.
    unfold known_tags. intros H.
    repeat (apply elem_of_cons in H as [H|H]; [contradiction|]).
    now apply elem_of_nil in H.
Qed.

(** *** Buffers *)

Lemma has_control_byte_true data :
  has_control_byte data = true <-> exists v, v ∈ data /\ utf8.val v < 32.
Proof.
  unfold has_control_byte. rewrite existsb_exists.
  split; intros (v & Hin & Hv); exists v.
  - apply list_elem_of_In in Hin. split; [assumption|lia].
  - apply list_elem_of_In in Hin. split; [assumption|lia].
Qed.

Lemma has_control_byte_false data :
  has_control_byte data = false <-> forall v, v ∈ data -> 32 <= utf8.val v.
Proof.
  rewrite <- not_true_iff_false, has_control_byte_true. split.
  - intros Hn v Hin. destruct (Z.lt_ge_cases (utf8.val v) 32); [|assumption].
    exfalso. eauto.
  - intros Hall (v & Hin & Hv). specialize (Hall v Hin). lia.
Qed.

(** The buffers that pass the three checks of [processMsgs]. *)
Definition well_formed (data : list byte) : Prop :=
  Z.of_nat (length data) <= 4096
  /\ (forall v, v ∈ data -> 32 <= utf8.val v)
  /\ utf8.Valid data = true.

Lemma processMsgs_well_formed sender data w :
  well_formed data ->
  processMsgs sender data w
  = processMsgs_loop (strings.Split (string_of_list_byte data) mdelim) sender [] w.
Proof.
  intros (Hlen & Hb & Hv). unfold processMsgs.
  destruct (Z.ltb_spec 4096 (Z.of_nat (length data))); [lia|].
  apply (proj2 (has_control_byte_false data)) in Hb. now rewrite Hb, Hv.
Qed.

(** The loop only ever appends to the errors it was given. *)
Lemma processMsgs_loop_errs msgs sender errs w :
  processMsgs_loop msgs sender errs w
  = (errs ++ (processMsgs_loop msgs sender [] w).1,
     (processMsgs_loop msgs sender [] w).2).
Proof.
  revert errs w. induction msgs as [|m msgs IH]; intros errs w; simpl.
  - unfold ret. simpl. now rewrite app_nil_r.
  - unfold bind. destruct (processMsg m sender w) as [[e|] w1].
    + rewrite (IH (errs ++ [e])), (IH ([] ++ [e])). simpl.
      now rewrite <- app_assoc.
    + apply IH.
Qed.

(** Running the loop over [pre ++ post] is running it over [pre] and then,
    from the world that leaves, over [post]. *)
Lemma processMsgs_loop_app pre post sender errs w :
  processMsgs_loop (pre ++ post) sender errs w
  = processMsgs_loop post sender (processMsgs_loop pre sender errs w).1
      (processMsgs_loop pre sender errs w).2.
Proof.
  revert errs w. induction pre as [|m pre IH]; intros errs w; simpl.
  - reflexivity.
  - unfold bind. destruct (processMsg m sender w) as [[e|] w1]; apply IH.
Qed.

(** C3. A buffer that is longer than 4096 bytes, or holds a byte below 32, or
    is not valid UTF-8 is answered with one error and nothing else happens:
    the world is as before, so no frame was dispatched. The error is that of
    the first check that fails, in the order size, bytes, encoding. *)
Theorem processMsgs_rejects_buffer sender data w :
  4096 < Z.of_nat (length data)
  \/ (exists v, v ∈ data /\ utf8.val v < 32)
  \/ utf8.Valid data = false ->
  exists msg,
    processMsgs sender data w = ([errors_New msg], w)
    /\ ((msg = "bad request size" /\ 4096 < Z.of_nat (length data))
        \/ (msg = "bad byte sequence"
            /\ Z.of_nat (length data) <= 4096
            /\ exists v, v ∈ data /\ utf8.val v < 32)
        \/ (msg = "invalid UTF-8"
            /\ Z.of_nat (length data) <= 4096
            /\ (forall v, v ∈ data -> 32 <= utf8.val v)
            /\ utf8.Valid data = false)).
Proof.
  intros H. unfold processMsgs.
  destruct (Z.ltb_spec 4096 (Z.of_nat (length data))) as [Hlen|Hlen].
  { eexists; split; [reflexivity|]. left. auto. }
  destruct (has_control_byte data) eqn:Hb.
  { eexists; split; [reflexivity|]. right; left.
    apply has_control_byte_true in Hb. auto. }
  destruct (utf8.Valid data) eqn:Hv; simpl.
  { exfalso. destruct H as [?|[Hc|?]]; [lia| |discriminate].
    apply has_control_byte_true in Hc. congruence. }
  eexists; split; [reflexivity|]. right; right.
  pose proof (proj1 (has_control_byte_false data) Hb). auto.
Qed.

(** C6. In a buffer that passes the three checks, a frame with an unknown
    type tag costs one "unknown message type" error and nothing else: the
    frames before it are processed, the frame leaves the world they made as
    it is, the frames after it are processed from that world, and the errors
    of the buffer are those of the frames before, then that error, then those
    of the frames after. *)
Theorem processMsgs_unknown_frame sender data w pre msgStr post tag rest :
  well_formed data ->
  strings.Split (string_of_list_byte data) mdelim = pre ++ msgStr :: post ->
  strings.Split msgStr delim = tag :: rest ->
  (tag ∉ known_tags) ->
  let before := processMsgs_loop pre sender [] w in
  let after := processMsgs_loop post sender [] before.2 in
  processMsg msgStr sender before.2
  = (Some (errors_New "unknown message type"), before.2)
  /\ processMsgs sender data w
     = (before.1 ++ [errors_New "unknown message type"] ++ after.1, after.2).
Proof.
  intros Hwf Hsplit Hfields Htag before after.
  pose proof (processMsg_unknown msgStr sender before.2 tag rest Hfields Htag)
    as Hmsg.
  split; [exact Hmsg|].
  rewrite processMsgs_well_formed, Hsplit, processMsgs_loop_app by assumption.
  fold before. simpl. unfold bind. rewrite Hmsg.
  rewrite processMsgs_loop_errs. fold after.
  now rewrite <- app_assoc.
Qed.

(** ** The rest of the hub: broadcast, the scheduled job, handleSession *)

(** [clients.Range(f)] with an [f] that always returns true and acts on the
    world: [f] runs once for every entry of the registry as it was when the
    iteration began, in an order [sync.Map] does not fix. *)
Definition clients_Range_do (f : string -> SessionClient -> M unit) : M unit :=
  fun w => (tt, map_fold (fun k v w' => (f k v w').2) w (clients w)).

Definition broadcast (segments : list any) : M unit :=
  clients_Range_do (fun _ v => sendMsg v segments).

Definition getSessionClientsLen : M Z :=
  clients_Range (fun _ _ length => length + 1) 0.

(** The party module's push, which lives in another file. *)
Variable sendPartyUpdate : M unit.

(** The function [initSession] gives the scheduler to run every 5 seconds. *)
Definition initSession_job : M unit :=
  let* n := getSessionClientsLen in
  broadcast [any_string "pc"; any_int n] ;;
  sendPartyUpdate.

(** [*http.Request], of which [handleSession] reads the query and what
    [getIp] and the upgrader make of it. In [r.URL.Query()] a key that is
    present has a first value: the parser only ever adds a value to a key. *)
Variable Request : Type.
Variable URL_Query : Request -> gmap string (string * list string).
Variable getIp : Request -> string.
(** [upgrader.Upgrade(w, r, header)]: a connection or an error. *)
Variable Upgrade : Request -> Ext -> (Conn + error) * Ext.
(** [log.Println(err)], the standard logger. *)
Variable log_Println : error -> Ext -> Ext.

(** Lines 54-57: the token of the request, kept only when it is 32 bytes
    long. *)
Definition playerToken (r : Request) : string :=
  match URL_Query r !! "token" with
  | Some (token0, _) => if (String.length token0 =? 32)%nat then token0 else ""
  | None => ""
  end.

Definition handleSession (r : Request) : M unit :=
  let* res := on_ext (Upgrade r) in
  match res with
  | inr err => on_ext (fun x => (tt, log_Println err x))
  | inl conn0 => addClient conn0 (getIp r) (playerToken r)
  end.

(** *** The registry as a whole *)

Lemma count_foldr (l : list (string * SessionClient)) :
  foldr (uncurry (fun (_ : string) (_ : SessionClient) length => length + 1)) 0 l
  = Z.of_nat (length l).
Proof.
  induction l as [|x l IH]; [reflexivity|].
  cbn [foldr length]. rewrite IH. destruct x. simpl uncurry. lia.
Qed.

(** X1. [getSessionClientsLen] returns the number of entries of the registry
    and changes nothing. *)
Theorem getSessionClientsLen_size w :
  getSessionClientsLen w = (Z.of_nat (size (clients w)), w).
Proof.
  unfold getSessionClientsLen, clients_Range.
  now rewrite map_fold_foldr, count_foldr, length_map_to_list.
Qed.

Lemma countSameIp_foldr ip0 (l : list (string * SessionClient)) :
  foldr (uncurry (countSameIp ip0)) 0 l
  = Z.of_nat (length (filter (fun kv => ip kv.2 = ip0) l)).
Proof.
  induction l as [|[k c] l IH]; [reflexivity|].
  cbn [foldr]. rewrite IH. simpl uncurry. unfold countSameIp.
  rewrite filter_cons. simpl.
  destruct (String.eqb_spec (ip c) ip0) as [E|E].
  - rewrite decide_True by assumption. simpl length. lia.
  - now rewrite decide_False by assumption.
Qed.

(** X2. The number the admission compares with 3 is the number of registry
    entries whose client has the address of the new connection; it is never
    more than the number of all entries. *)
Theorem sameIpCount_filter ip0 (m : gmap string SessionClient) :
  sameIpCount ip0 m
  = Z.of_nat (length (filter (fun kv => ip kv.2 = ip0) (map_to_list m)))
  /\ 0 <= sameIpCount ip0 m <= Z.of_nat (size m).
Proof.
  unfold sameIpCount. rewrite map_fold_foldr, countSameIp_foldr.
  split; [reflexivity|]. split; [lia|].
  rewrite <- length_map_to_list. apply inj_le, length_filter.
Qed.

Lemma broadcast_foldr segments (l : list (string * SessionClient)) w :
  foldr (uncurry (fun (_ : string) v w' => (sendMsg v segments w').2)) w l
  = {| clients := clients w; session := session w;
       trace := trace w
                ++ reverse ((fun kv => Ev_sendMsg kv.2 segments) <$> l);
       ext := ext w |}.
Proof.
  induction l as [|[k c] l IH].
  - destruct w. simpl. now rewrite app_nil_r.
  - cbn [foldr]. rewrite IH. simpl.
    now rewrite reverse_cons, app_assoc.
Qed.

(** X3. [broadcast] hands the frame to every client of the registry, once for
    each entry, and does nothing else: registry, counter and the
    collaborators' store are as before, and the trace grows by one [sendMsg]
    per entry, in some order. *)
Theorem broadcast_all segments w :
  exists sent,
    broadcast segments w
    = (tt, {| clients := clients w; session := session w;
              trace := trace w ++ sent; ext := ext w |})
    /\ sent ≡ₚ (fun kv => Ev_sendMsg kv.2 segments) <$> map_to_list (clients w).
Proof.
  exists (reverse ((fun kv => Ev_sendMsg kv.2 segments) <$> map_to_list (clients w))).
  split; [|apply reverse_Permutation].
  unfold broadcast, clients_Range_do.
  now rewrite map_fold_foldr, broadcast_foldr.
Qed.

(** X4. The scheduled job sends every registered client one frame
    ["pc", n], with [n] the number of registered clients, and then runs the
    party update on the world that leaves. *)
Theorem initSession_job_count w :
  exists sent,
    initSession_job w
    = sendPartyUpdate {| clients := clients w; session := session w;
                         trace := trace w ++ sent; ext := ext w |}
    /\ sent ≡ₚ (fun kv => Ev_sendMsg kv.2 [any_string "pc";
                                          any_int (Z.of_nat (size (clients w)))])
              <$> map_to_list (clients w).
Proof.
  eexists. split; [|apply reverse_Permutation].
  unfold initSession_job, bind, getSessionClientsLen, clients_Range.
  rewrite map_fold_foldr, count_foldr, length_map_to_list.
  unfold broadcast, clients_Range_do.
  now rewrite map_fold_foldr, broadcast_foldr.
Qed.

(** *** More on admission *)

Lemma resolveIdentity_handles conn0 ip0 token w :
  conn (resolveIdentity conn0 ip0 token w).1.1 = conn0
  /\ send (resolveIdentity conn0 ip0 token w).1.1 = make_chan 16
  /\ receive (resolveIdentity conn0 ip0 token w).1.1 = make_chan 16.
Proof.
  unfold resolveIdentity, bind, on_ext, ret.
  destruct (negb (String.eqb token "")); simpl.
  - destruct (getPlayerDataFromToken token (ext w)) as [[[[[[u n] r] b] bn] m] x].
    simpl. destruct (negb (String.eqb u "")); simpl; [done|].
    destruct (getOrCreatePlayerData ip0 x) as [[[u' b'] m'] x']. done.
  - destruct (getOrCreatePlayerData ip0 (ext w)) as [[[u' b'] m'] x']. done.
Qed.

Lemma registered_fields client w :
  conn (registered client w) = conn client
  /\ send (registered client w) = send client
  /\ receive (registered client w) = receive client
  /\ id (registered client w) = lastId (session w).
Proof.
  unfold registered. destruct (getPlayerGameData _ _) as [[[a b] c] x].
  simpl. now destruct (String.eqb (badge client) "").
Qed.

(** What an admission does to registry and counter: nothing, or one new
    entry under a free key for a client whose id is the old counter, the
    counter moving on by one. *)
Lemma addClient_hub conn0 ip0 token w :
  (clients (addClient conn0 ip0 token w).2 = clients w
   /\ session (addClient conn0 ip0 token w).2 = session w)
  \/ exists c,
       clients w !! uuid c = None
       /\ id c = lastId (session w)
       /\ clients (addClient conn0 ip0 token w).2 = <[uuid c := c]> (clients w)
       /\ lastId (session (addClient conn0 ip0 token w).2)
          = wrap_int (lastId (session w) + 1).
Proof.
  destruct (resolveIdentity conn0 ip0 token w) as [[client banned] w1] eqn:Hr.
  destruct (resolveIdentity_inv _ _ _ _ _ _ _ Hr) as (Hcl & Hse & _ & _).
  assert (Hrej : banned = true \/ is_Some (clients w !! uuid client)
                 \/ 3 <= sameIpCount ip0 (clients w) ->
                 clients (addClient conn0 ip0 token w).2 = clients w
                 /\ session (addClient conn0 ip0 token w).2 = session w).
  { intros H. destruct (addClient_rejected _ _ _ _ _ _ _ Hr H) as (msg & -> & _).
    simpl. auto. }
  destruct banned; [left; auto|].
  destruct (clients w !! uuid client) as [c0|] eqn:Hc; [left; eauto|].
  destruct (Z.le_gt_cases 3 (sameIpCount ip0 (clients w))) as [Hn|Hn];
    [left; auto|right].
  exists (registered client w1).
  destruct (registered_fields client w1) as (_ & _ & _ & Hid).
  rewrite uuid_registered, Hid, Hse. repeat split; try assumption.
  - unfold addClient, bind. rewrite Hr.
    rewrite admission_pass by (rewrite Hcl; assumption). simpl. now rewrite Hcl.
  - unfold addClient, bind. rewrite Hr.
    rewrite admission_pass by (rewrite Hcl; assumption). simpl. now rewrite Hse.
Qed.

(** X5. Where the identity of a connection comes from. A client is marked as
    an account exactly when a token was given and the token store returned a
    uuid for it; uuid and banned flag are then the token store's, and the
    address store is not consulted. Otherwise uuid, banned flag and muted
    flag are the address store's, whatever the token store said. *)
Theorem resolveIdentity_account conn0 ip0 token w client banned w1 :
  resolveIdentity conn0 ip0 token w = ((client, banned), w1) ->
  let '((u, _, _, _, bn, _), x) := getPlayerDataFromToken token (ext w) in
  if account client then
    token <> "" /\ u <> "" /\ uuid client = u /\ banned = bn /\ ext w1 = x
  else
    (token = "" \/ u = "")
    /\ exists x0,
         x0 = (if String.eqb token "" then ext w else x)
         /\ (uuid client, banned, muted client)
            = (getOrCreatePlayerData ip0 x0).1
         /\ ext w1 = (getOrCreatePlayerData ip0 x0).2.
Proof.
  unfold resolveIdentity, bind, on_ext, ret.
  destruct (String.eqb_spec token "") as [Ht|Ht]; simpl.
  - destruct (getPlayerDataFromToken token (ext w)) as [[[[[[u n] r] b] bn] m] x].
    destruct (getOrCreatePlayerData ip0 (ext w)) as [[[u' b'] m'] x'] eqn:Hg.
    simpl. intros H. simplify_eq. simpl. split; [auto|].
    exists (ext w). now rewrite Hg.
  - destruct (getPlayerDataFromToken token (ext w)) as [[[[[[u n] r] b] bn] m] x].
    simpl. destruct (String.eqb_spec u "") as [Hu|Hu]; simpl.
    + destruct (getOrCreatePlayerData ip0 x) as [[[u' b'] m'] x'] eqn:Hg.
      simpl. intros H. simplify_eq. simpl. split; [auto|].
      exists x. now rewrite Hg.
    + intros H. simplify_eq. simpl. auto.
Qed.

(** X6. A successful admission files the client under its uuid with the
    connection, the address, channels of capacity 16 and the old counter as
    id; the counter moves on by one (wrapping as a Go int does), the registry
    has one entry more, and every other entry is as it was. *)
Theorem addClient_registers conn0 ip0 token w client w1 :
  resolveIdentity conn0 ip0 token w = ((client, false), w1) ->
  clients w !! uuid client = None ->
  sameIpCount ip0 (clients w) < 3 ->
  (exists c,
      clients (addClient conn0 ip0 token w).2 !! uuid client = Some c
      /\ uuid c = uuid client /\ conn c = conn0 /\ ip c = ip0
      /\ send c = make_chan 16 /\ receive c = make_chan 16
      /\ id c = lastId (session w))
  /\ lastId (session (addClient conn0 ip0 token w).2)
     = wrap_int (lastId (session w) + 1)
  /\ size (clients (addClient conn0 ip0 token w).2) = S (size (clients w))
  /\ (forall k, k <> uuid client ->
        clients (addClient conn0 ip0 token w).2 !! k = clients w !! k).
Proof.
  intros Hr Hc Hn.
  destruct (resolveIdentity_inv _ _ _ _ _ _ _ Hr) as (Hcl & Hse & _ & Hip).
  pose proof (resolveIdentity_handles conn0 ip0 token w) as (Hco & Hsd & Hrc).
  rewrite Hr in Hco, Hsd, Hrc. simpl in Hco, Hsd, Hrc.
  destruct (registered_fields client w1) as (Hco' & Hsd' & Hrc' & Hid).
  assert (E : addClient conn0 ip0 token w = admission client false ip0 w1).
  { unfold addClient, bind. now rewrite Hr. }
  rewrite E, admission_pass by (rewrite Hcl; assumption). simpl.
  rewrite Hcl, Hse. split; [|split; [|split]].
  - exists (registered client w1). rewrite lookup_insert_eq.
    rewrite uuid_registered, ip_registered, Hco', Hsd', Hrc', Hid, Hse.
    repeat split; assumption.
  - reflexivity.
  - now apply map_size_insert_None.
  - intros k Hk. now rewrite lookup_insert_ne.
Qed.

(** The ids of the registered clients are all below the counter, and no two
    entries have the same id. *)
Definition ids_ok (w : World) : Prop :=
  (forall k c, clients w !! k = Some c -> id c < lastId (session w))
  /\ (forall k1 k2 c1 c2,
        clients w !! k1 = Some c1 -> clients w !! k2 = Some c2 ->
        id c1 = id c2 -> k1 = k2).

(** X7. A call of [addClient] that no other admission overlaps (the
    counter is read and incremented without a lock) keeps the ids of the
    registered clients distinct and below the counter, as long as the
    counter has not reached the largest Go int. *)
Theorem addClient_ids_ok conn0 ip0 token w :
  ids_ok w ->
  - 2 ^ 63 <= lastId (session w) < 2 ^ 63 - 1 ->
  ids_ok (addClient conn0 ip0 token w).2.
Proof.
  intros [Hlt Hinj] Hrange.
  destruct (addClient_hub conn0 ip0 token w)
    as [[Ec Es]|(c & Hfree & Hid & Ec & Es)].
  { unfold ids_ok. rewrite Ec, Es. auto. }
  assert (Hw : wrap_int (lastId (session w) + 1) = lastId (session w) + 1).
  { unfold wrap_int. rewrite Z.mod_small; lia. }
  unfold ids_ok. rewrite Ec, Es, Hw. split.
  - intros k c' [[<- <-]|[_ Hk]]%lookup_insert_Some; [lia|].
    specialize (Hlt _ _ Hk). lia.
  - intros k1 k2 c1 c2 [[<- <-]|[? H1]]%lookup_insert_Some
                       [[<- <-]|[? H2]]%lookup_insert_Some Hi.
    + reflexivity.
    + specialize (Hlt _ _ H2). lia.
    + specialize (Hlt _ _ H1). lia.
    + eauto.
Qed.

(** *** More on dispatch and buffers *)

Local Ltac ok_case h :=
  destruct h as [[?|] ?]; unfold bind, ret, writeLog, sendMsg, emit; simpl;
  intros H; simplify_eq;
  eexists; split; [reflexivity|];
  repeat (first [left; split; reflexivity | right]);
  try (split; reflexivity).

(** X8. When [processMsg] returns nil for a frame with fields, the tag is one
    of the eight the switch knows, the handler of that tag returned nil, and
    the one thing [processMsg] added to what the handler did is a line of the
    request log with the sender's address, the frame and status 200: no
    frame is sent, not for [pt] either. *)
Theorem processMsg_ok_logged msgStr sender w tag rest w' :
  strings.Split msgStr delim = tag :: rest ->
  processMsg msgStr sender w = (None, w') ->
  exists w1,
    w' = {| clients := clients w1; session := session w1;
            trace := trace w1 ++ [Ev_writeLog (ip sender) "session" msgStr 200];
            ext := ext w1 |}
    /\ ((tag = "i" /\ handleI sender w = (None, w1))
        \/ (tag = "name" /\ handleName (tag :: rest) sender w = (None, w1))
        \/ (tag = "ploc" /\ handlePloc (tag :: rest) sender w = (None, w1))
        \/ (tag = "gsay" /\ handleGSay (tag :: rest) sender w = (None, w1))
        \/ (tag = "psay" /\ handlePSay (tag :: rest) sender w = (None, w1))
        \/ (tag = "pt" /\ handlePt sender w = (None, w1))
        \/ (tag = "ep" /\ handleEp sender w = (None, w1))
        \/ (tag = "e" /\ handleE sender w = (None, w1))).
Proof.
  intros Hs. unfold processMsg, bind. rewrite Hs. unfold dispatch.
  destruct (String.eqb_spec tag "i") as [->|Hi];
    [ok_case (handleI sender w)|].
  destruct (String.eqb_spec tag "name") as [->|Hname];
    [ok_case (handleName ("name" :: rest) sender w)|].
  destruct (String.eqb_spec tag "ploc") as [->|Hploc];
    [ok_case (handlePloc ("ploc" :: rest) sender w)|].
  destruct (String.eqb_spec tag "gsay") as [->|Hgsay];
    [ok_case (handleGSay ("gsay" :: rest) sender w)|].
  destruct (String.eqb_spec tag "psay") as [->|Hpsay];
    [ok_case (handlePSay ("psay" :: rest) sender w)|].
  destruct (String.eqb_spec tag "pt") as [->|Hpt].
  { unfold bind. ok_case (handlePt sender w). }
  destruct (String.eqb_spec tag "ep") as [->|Hep];
    [ok_case (handleEp sender w)|].
  destruct (String.eqb_spec tag "e") as [->|He];
    [ok_case (handleE sender w)|].
  unfold ret. simpl. discriminate.
Qed.

Lemma processMsgs_loop_length msgs sender errs w :
  (length (processMsgs_loop msgs sender errs w).1
   <= length errs + length msgs)%nat.
Proof.
  revert errs w. induction msgs as [|m msgs IH]; intros errs w; simpl.
  - lia.
  - unfold bind. destruct (processMsg m sender w) as [[e|] w1].
    + specialize (IH (errs ++ [e]) w1). rewrite length_app in IH. simpl in IH. lia.
    + specialize (IH errs w1). lia.
Qed.

(** X9. [processMsgs] returns at most one error for a buffer it rejects and
    at most one per frame for a buffer it takes. *)
Theorem processMsgs_errs_bound sender data w :
  (length (processMsgs sender data w).1
   <= Nat.max 1 (length (strings.Split (string_of_list_byte data) mdelim)))%nat.
Proof.
  unfold processMsgs.
  destruct (4096 <? Z.of_nat (length data)); [simpl; lia|].
  destruct (has_control_byte data); [simpl; lia|].
  destruct (negb (utf8.Valid data)); [simpl; lia|].
  pose proof (processMsgs_loop_length
                (strings.Split (string_of_list_byte data) mdelim) sender [] w).
  simpl in *. lia.
Qed.

(** X10. The empty buffer is not a no-op. Cut on a message delimiter that is
    not empty it is one empty frame, and with a field delimiter that is not
    empty that frame is an unknown message: one error, nothing else. *)
Theorem processMsgs_empty_buffer sender w :
  delim <> "" -> mdelim <> "" ->
  processMsgs sender [] w = ([errors_New "unknown message type"], w).
Proof.
  intros Hd Hm. unfold processMsgs. simpl.
  destruct mdelim as [|a m]; [congruence|]. simpl. unfold bind.
  now rewrite processMsg_empty_frame.
Qed.

Lemma Valid_ascii data :
  (forall v, v ∈ data -> utf8.val v < 128) -> utf8.Valid data = true.
Proof.
  induction data as [|b data IH]; intros H; [reflexivity|].
  simpl. pose proof (H b ltac:(left)) as Hb.
  destruct (Z.ltb_spec (utf8.val b) utf8.RuneSelf) as [_|Hge];
    [|unfold utf8.RuneSelf in Hge; lia].
  apply IH. intros v Hv. apply H. now right.
Qed.

(** X11. A buffer of at most 4096 bytes, all of them printable ASCII (32 to
    127), passes the three checks: [processMsgs] cuts it into frames and
    processes them. *)
Theorem processMsgs_printable_ascii sender data w :
  Z.of_nat (length data) <= 4096 ->
  (forall v, v ∈ data -> 32 <= utf8.val v < 128) ->
  well_formed data
  /\ processMsgs sender data w
     = processMsgs_loop (strings.Split (string_of_list_byte data) mdelim)
         sender [] w.
Proof.
  intros Hlen Hb.
  assert (Hwf : well_formed data).
  { split; [assumption|]. split.
    - intros v Hv. apply Hb in Hv. lia.
    - apply Valid_ascii. intros v Hv. apply Hb in Hv. lia. }
  split; [assumption|]. now apply processMsgs_well_formed.
Qed.

(** *** handleSession *)

Lemma playerToken_cases r :
  playerToken r = ""
  \/ exists rest, URL_Query r !! "token" = Some (playerToken r, rest)
                  /\ String.length (playerToken r) = 32%nat.
Proof.
  unfold playerToken.
  destruct (URL_Query r !! "token") as [[t rest]|]; [|auto].
  destruct (Nat.eqb_spec (String.length t) 32); [|auto].
  right. eauto.
Qed.

(** X12. When the upgrade to a websocket fails, [handleSession] admits
    nobody: registry, counter and trace are as before, and the error goes to
    the standard logger. *)
Theorem handleSession_upgrade_failed r w err x :
  Upgrade r (ext w) = (inr err, x) ->
  handleSession r w
  = (tt, {| clients := clients w; session := session w; trace := trace w;
            ext := log_Println err x |}).
Proof.
  intros Hu. unfold handleSession, bind, on_ext. now rewrite Hu.
Qed.

(** X13. A request without a token, or with a token whose first value is not
    exactly 32 bytes long, is admitted as [addClient] admits a connection
    with the empty token: by its address. *)
Theorem handleSession_token_ignored r w conn0 x :
  Upgrade r (ext w) = (inl conn0, x) ->
  (forall t rest, URL_Query r !! "token" = Some (t, rest) ->
                  String.length t <> 32%nat) ->
  handleSession r w
  = addClient conn0 (getIp r) ""
      {| clients := clients w; session := session w; trace := trace w;
         ext := x |}.
Proof.
  intros Hu Ht. unfold handleSession, bind, on_ext. rewrite Hu.
  destruct (playerToken_cases r) as [->|(rest & Hq & Hl)]; [reflexivity|].
  now apply Ht in Hq.
Qed.

(** *** Admissions that overlap *)

(** [handleSession] runs on a goroutine of its own for every request, and
    [addClient] takes no lock: between the [clients.Load] and the
    [clients.Range] of one admission, and between its [clients.Range] and its
    [clients.Store], other admissions may run. The admission is cut here at
    these two places. Every run of the three pieces is a run of the program
    (one that is not preempted elsewhere), and the pieces after the cuts
    touch the registry with the one [clients.Store] only. *)

(** Lines 81-89: the ban check and [clients.Load]; true when both pass. *)
Definition admission_load (client : SessionClient) (banned : bool)
    (ip0 : string) : M bool :=
  if banned then
    writeErrLog ip0 "session" "player is banned" ;;
    ret false
  else
    let* found := clients_Load (uuid client) in
    match found with
    | Some _ =>
        writeErrLog ip0 "session" "session already exists for uuid" ;;
        ret false
    | None => ret true
    end.

(** Lines 91-102: [clients.Range] and the check of the count; true when it
    passes. *)
Definition admission_count (ip0 : string) : M bool :=
  let* sameIp := clients_Range (countSameIp ip0) 0 in
  if 3 <=? sameIp then
    writeErrLog ip0 "session" "too many connections from ip" ;;
    ret false
  else ret true.

(** Lines 104-124: the registration. *)
Definition admission_commit (client : SessionClient) (ip0 : string) : M unit :=
  let client :=
    if String.eqb (badge client) "" then set_badge client "null"
    else client in
  let* n := next_id in
  let client := set_id client n in
  let* d := on_ext (getPlayerGameData (uuid client)) in
  let client := set_game_data client d in
  clients_Store (uuid client) client ;;
  sendMsg client [any_string "s"; any_string (uuid client);
                  any_int (rank client); any_bool (account client);
                  any_string (badge client)] ;;
  go client msgProcessor ;;
  go client msgWriter ;;
  go client msgReader ;;
  writeLog ip0 "session" "connect" 200.

(** The three pieces, run one after the other, are [admission]. *)
Lemma admission_phases client banned ip0 w :
  admission client banned ip0 w
  = (let* ok := admission_load client banned ip0 in
     if ok then
       let* ok' := admission_count ip0 in
       if ok' then admission_commit client ip0 else ret tt
     else ret tt) w.
Proof.
  unfold admission, admission_load, admission_count, admission_commit,
    bind, ret, writeErrLog, emit, clients_Load, clients_Range.
  destruct banned; [reflexivity|]. simpl.
  destruct (clients w !! uuid client); [reflexivity|]. simpl.
  destruct (3 <=? map_fold (countSameIp ip0) 0 (clients w)); reflexivity.
Qed.

(** How far an admission in flight has come: past [clients.Load], or past
    [clients.Range] as well. *)
Inductive Stage := Loaded | Counted.

(** An admission in flight: the client it resolved, the address it was
    called with, and its stage. *)
Record InFlight := {
  fl_client : SessionClient;
  fl_ip : string;
  fl_stage : Stage
}.

(** The hub with the admissions that are under way. *)
Record Hub := {
  hub_world : World;
  in_flight : list InFlight
}.

(** A request arrives: its identity is resolved and lines 81-89 run. *)
Definition begin_admission (conn0 : Conn) (ip0 token : string) (h : Hub) : Hub :=
  let '((client, banned), w1) := resolveIdentity conn0 ip0 token (hub_world h) in
  let '(ok, w2) := admission_load client banned ip0 w1 in
  {| hub_world := w2;
     in_flight :=
       if ok then
         in_flight h ++ [ {| fl_client := client; fl_ip := ip0;
                             fl_stage := Loaded |} ]
       else in_flight h |}.

(** The admission [f], between [before] and [after] in the list, runs lines
    91-102. *)
Definition count_admission (before : list InFlight) (f : InFlight)
    (after : list InFlight) (w : World) : Hub :=
  let '(ok, w') := admission_count (fl_ip f) w in
  {| hub_world := w';
     in_flight :=
       if ok then
         before ++ {| fl_client := fl_client f; fl_ip := fl_ip f;
                      fl_stage := Counted |} :: after
       else before ++ after |}.

(** The admission [f] runs lines 104-124. *)
Definition commit_admission (before : list InFlight) (f : InFlight)
    (after : list InFlight) (w : World) : Hub :=
  {| hub_world := (admission_commit (fl_client f) (fl_ip f) w).2;
     in_flight := before ++ after |}.

(** One piece of one admission, or one teardown. *)
Inductive conc_step : Hub -> Hub -> Prop :=
| conc_begin conn0 ip0 token h :
    conc_step h (begin_admission conn0 ip0 token h)
| conc_count before f after w :
    fl_stage f = Loaded ->
    conc_step {| hub_world := w; in_flight := before ++ f :: after |}
      (count_admission before f after w)
| conc_commit before f after w :
    fl_stage f = Counted ->
    conc_step {| hub_world := w; in_flight := before ++ f :: after |}
      (commit_admission before f after w)
| conc_teardown k h :
    conc_step h {| hub_world := (teardown k (hub_world h)).2;
                   in_flight := in_flight h |}.

(** The hubs that overlapping admissions can lead to, from an empty registry
    with no admission under way. *)
Inductive conc_reachable : Hub -> Prop :=
| conc_init h :
    clients (hub_world h) = ∅ -> in_flight h = [] -> conc_reachable h
| conc_next h h' : conc_reachable h -> conc_step h h' -> conc_reachable h'.

(** Whether [f] is an admission from [ip0] that is past its count and has
    not stored yet. *)
Definition is_counted (ip0 : string) (f : InFlight) : bool :=
  match fl_stage f with
  | Counted => String.eqb (fl_ip f) ip0
  | Loaded => false
  end.

Definition counted (ip0 : string) (l : list InFlight) : Z :=
  Z.of_nat (length (List.filter (is_counted ip0) l)).

(** No two admissions from one address are between their count and their
    store at the same time. *)
Definition no_overlap (h : Hub) : Prop :=
  forall ip0, counted ip0 (in_flight h) <= 1.

(** The hubs reached by runs that never have two admissions from one address
    between count and store. Admissions from different addresses, and the
    earlier pieces of admissions from one address, overlap freely. *)
Inductive solo_reachable : Hub -> Prop :=
| solo_init h :
    clients (hub_world h) = ∅ -> in_flight h = [] -> solo_reachable h
| solo_next h h' :
    solo_reachable h -> conc_step h h' -> no_overlap h' -> solo_reachable h'.

Lemma admission_load_frame client banned ip0 w :
  clients (admission_load client banned ip0 w).2 = clients w
  /\ session (admission_load client banned ip0 w).2 = session w.
Proof.
  unfold admission_load, bind, ret, writeErrLog, emit, clients_Load.
  destruct banned; [done|]. simpl. now destruct (clients w !! uuid client).
Qed.

Lemma admission_count_spec ip0 w :
  (3 <= sameIpCount ip0 (clients w)
   /\ admission_count ip0 w
      = (false, {| clients := clients w; session := session w;
                   trace := trace w
                            ++ [Ev_writeErrLog ip0 "session"
                                  "too many connections from ip"];
                   ext := ext w |}))
  \/ (sameIpCount ip0 (clients w) < 3 /\ admission_count ip0 w = (true, w)).
Proof.
  unfold admission_count, bind, ret, writeErrLog, emit, clients_Range.
  fold (sameIpCount ip0 (clients w)).
  destruct (Z.leb_spec 3 (sameIpCount ip0 (clients w))); [left|right]; done.
Qed.

Lemma admission_commit_clients client ip0 w :
  clients (admission_commit client ip0 w).2
  = <[uuid client := registered client w]> (clients w).
Proof.
  unfold admission_commit, registered, bind, next_id, on_ext, clients_Store,
    sendMsg, go, writeLog, emit. simpl.
  destruct (String.eqb (badge client) ""); simpl;
    destruct (getPlayerGameData (uuid client) (ext w)) as [[[a b] d] x]; reflexivity.
Qed.

Lemma sameIpCount_insert_le ip0 k c (m : gmap string SessionClient) :
  sameIpCount ip0 (<[k := c]> m)
  <= sameIpCount ip0 m + (if String.eqb (ip c) ip0 then 1 else 0).
Proof.
  rewrite <- insert_delete_eq.
  rewrite sameIpCount_insert by apply lookup_delete_eq.
  pose proof (sameIpCount_delete ip0 k m). unfold countSameIp.
  destruct (String.eqb (ip c) ip0); lia.
Qed.

Lemma counted_app ip0 l1 l2 :
  counted ip0 (l1 ++ l2) = counted ip0 l1 + counted ip0 l2.
Proof. unfold counted. rewrite List.filter_app, length_app. lia. Qed.

Lemma counted_cons ip0 f l :
  counted ip0 (f :: l) = (if is_counted ip0 f then 1 else 0) + counted ip0 l.
Proof. unfold counted. simpl. destruct (is_counted ip0 f); simpl; lia. Qed.

Lemma counted_nonneg ip0 l : 0 <= counted ip0 l.
Proof. unfold counted. lia. Qed.

Lemma conc_count_at h before f after :
  in_flight h = before ++ f :: after ->
  fl_stage f = Loaded ->
  conc_step h (count_admission before f after (hub_world h)).
Proof. destruct h; simpl; intros -> ?. now constructor. Qed.

Lemma conc_commit_at h before f after :
  in_flight h = before ++ f :: after ->
  fl_stage f = Counted ->
  conc_step h (commit_admission before f after (hub_world h)).
Proof. destruct h; simpl; intros -> ?. now constructor. Qed.

(** An admission in flight carries a client with the address it was called
    with. *)
Lemma conc_reachable_ip h :
  conc_reachable h ->
  forall f, f ∈ in_flight h -> ip (fl_client f) = fl_ip f.
Proof.
  induction 1 as [h _ Hfl|h h' _ IH Hstep]; intros f0 Hin.
  { rewrite Hfl in Hin. now apply elem_of_nil in Hin. }
  destruct Hstep as [conn0 ip0 token h|before f after w Hst
                    |before f after w Hst|k h]; simpl in *.
  - unfold begin_admission in Hin.
    destruct (resolveIdentity conn0 ip0 token (hub_world h))
      as [[client banned] w1] eqn:Hr.
    destruct (admission_load client banned ip0 w1) as [[|] w2]; simpl in Hin;
      [|auto].
    apply elem_of_app in Hin as [Hin|Hin%list_elem_of_singleton]; [auto|].
    subst f0. simpl.
    now destruct (resolveIdentity_inv _ _ _ _ _ _ _ Hr) as (_ & _ & _ & ?).
  - unfold count_admission in Hin.
    destruct (admission_count (fl_ip f) w) as [[|] w']; simpl in Hin.
    + apply elem_of_app in Hin as [Hin|[->|Hin]%elem_of_cons].
      * apply IH, elem_of_app. auto.
      * simpl. apply IH, elem_of_app. right. left.
      * apply IH, elem_of_app. right. now right.
    + apply elem_of_app in Hin as [Hin|Hin]; apply IH, elem_of_app;
        [auto|right; now right].
  - apply elem_of_app in Hin as [Hin|Hin]; apply IH, elem_of_app;
      [auto|right; now right].
  - auto.
Qed.

Lemma solo_conc h : solo_reachable h -> conc_reachable h.
Proof.
  induction 1 as [h H0 Hfl|h h' _ IH Hstep _];
    [now apply conc_init|now apply (conc_next h)].
Qed.

(** In a run without such an overlap, the registered clients of an address
    and its admissions between count and store are never more than three
    together. *)
Lemma solo_reachable_bound h :
  solo_reachable h ->
  forall ip0,
    sameIpCount ip0 (clients (hub_world h)) + counted ip0 (in_flight h) <= 3.
Proof.
  induction 1 as [h H0 Hfl|h h' Hh IH Hstep Hno]; intros ip1.
  { rewrite H0, Hfl, sameIpCount_empty. unfold counted. simpl. lia. }
  pose proof (conc_reachable_ip h (solo_conc h Hh)) as Hip.
  specialize (Hno ip1). specialize (IH ip1).
  destruct Hstep as [conn0 ip0 token h|before f after w Hst
                    |before f after w Hst|k h]; simpl in *.
  - unfold begin_admission in *.
    destruct (resolveIdentity conn0 ip0 token (hub_world h))
      as [[client banned] w1] eqn:Hr.
    destruct (resolveIdentity_inv _ _ _ _ _ _ _ Hr) as (Hcl & _ & _ & _).
    pose proof (admission_load_frame client banned ip0 w1) as [Hcl' _].
    destruct (admission_load client banned ip0 w1) as [[|] w2]; simpl in *;
      rewrite Hcl', Hcl; [|assumption].
    rewrite counted_app, counted_cons. simpl. unfold counted at 2. simpl. lia.
  - unfold count_admission in *.
    rewrite counted_app, counted_cons in IH.
    assert (Hf : is_counted ip1 f = false) by (unfold is_counted; now rewrite Hst).
    rewrite Hf in IH.
    destruct (admission_count_spec (fl_ip f) w) as [[Hn E]|[Hn E]];
      rewrite E in *; simpl in *.
    + rewrite counted_app. lia.
    + rewrite counted_app, counted_cons in Hno |- *.
      unfold is_counted in Hno |- *. simpl in Hno |- *.
      destruct (String.eqb_spec (fl_ip f) ip1) as [Heq|_]; [|lia].
      rewrite Heq in Hn.
      pose proof (counted_nonneg ip1 before).
      pose proof (counted_nonneg ip1 after). lia.
  - unfold commit_admission. simpl.
    rewrite admission_commit_clients.
    pose proof (sameIpCount_insert_le ip1 (uuid (fl_client f))
                  (registered (fl_client f) w) (clients w)) as Hle.
    rewrite ip_registered in Hle.
    rewrite (Hip f) in Hle by (apply elem_of_app; right; left).
    rewrite counted_app, counted_cons in IH. rewrite counted_app.
    unfold is_counted in IH. rewrite Hst in IH.
    destruct (String.eqb (fl_ip f) ip1); lia.
  - pose proof (sameIpCount_delete ip1 k (clients (hub_world h))). lia.
Qed.

(** Admissions that run one after the other are runs without overlap: the
    worlds of [reachable] are hubs of [solo_reachable] with no admission
    under way. *)
Lemma reachable_solo w :
  reachable w -> solo_reachable {| hub_world := w; in_flight := [] |}.
Proof.
  assert (Hnil : forall w0, no_overlap {| hub_world := w0; in_flight := [] |}).
  { intros w0 ip1. unfold counted. simpl. lia. }
  induction 1 as [w H0|w w' _ IH Hstep]; [now apply solo_init|].
  destruct Hstep as [conn0 ip0 token w|k w].
  2:{ eapply solo_next; [exact IH| |apply Hnil].
      apply (conc_teardown k {| hub_world := w; in_flight := [] |}). }
  pose proof (conc_begin conn0 ip0 token {| hub_world := w; in_flight := [] |})
    as Hb.
  unfold addClient, bind. unfold begin_admission in Hb. simpl in Hb.
  destruct (resolveIdentity conn0 ip0 token w) as [[client banned] w1].
  rewrite admission_phases. unfold bind.
  destruct (admission_load client banned ip0 w1) as [[|] w2]; simpl in *.
  2:{ eapply solo_next; [exact IH|exact Hb|apply Hnil]. }
  set (f := {| fl_client := client; fl_ip := ip0; fl_stage := Loaded |}) in *.
  assert (H1 : solo_reachable {| hub_world := w2; in_flight := [f] |}).
  { eapply solo_next; [exact IH|exact Hb|].
    intros ip1. unfold counted, is_counted. subst f. simpl. lia. }
  pose proof (conc_count [] f [] w2 eq_refl) as Hc.
  unfold count_admission in Hc. simpl in Hc.
  destruct (admission_count ip0 w2) as [[|] w3]; simpl in *.
  2:{ eapply solo_next; [exact H1|exact Hc|apply Hnil]. }
  set (g := {| fl_client := client; fl_ip := ip0; fl_stage := Counted |}) in *.
  assert (H2 : solo_reachable {| hub_world := w3; in_flight := [g] |}).
  { eapply solo_next; [exact H1|exact Hc|].
    intros ip1. unfold counted, is_counted. subst g. simpl.
    destruct (String.eqb ip0 ip1); simpl; lia. }
  eapply solo_next; [exact H2| |apply Hnil].
  apply (conc_commit [] g [] w3 eq_refl).
Qed.

(** The address limit when admissions run one after the other: no address
    ever has more than three registered clients. *)
Lemma reachable_solo_limit w :
  reachable w -> forall ip0, sameIpCount ip0 (clients w) <= 3.
Proof.
  intros Hw ip0.
  pose proof (solo_reachable_bound _ (reachable_solo w Hw) ip0) as H.
  simpl in H. unfold counted in H. simpl in H. lia.
Qed.

(** C5 (as amended). An admission from an address that three or more
    registered clients already have is rejected before anything is
    registered: the registry is as before and the only effect is one line of
    the error log. The count itself, whenever it finds three or more,
    rejects and leaves the registry alone. And as long as no two admissions
    from one address are between their count and their store at the same
    time, no address has more than three registered clients. *)
Theorem addClient_ip_limit_no_overlap :
  (forall conn0 ip0 token w,
      3 <= sameIpCount ip0 (clients w) ->
      clients (addClient conn0 ip0 token w).2 = clients w
      /\ exists msg,
           trace (addClient conn0 ip0 token w).2
           = trace w ++ [Ev_writeErrLog ip0 "session" msg])
  /\ (forall ip0 w,
        3 <= sameIpCount ip0 (clients w) ->
        admission_count ip0 w
        = (false, {| clients := clients w; session := session w;
                     trace := trace w
                              ++ [Ev_writeErrLog ip0 "session"
                                    "too many connections from ip"];
                     ext := ext w |}))
  /\ (forall h, solo_reachable h ->
        forall ip0, sameIpCount ip0 (clients (hub_world h)) <= 3).
Proof.
  split; [|split].
  - intros conn0 ip0 token w Hn.
    destruct (resolveIdentity conn0 ip0 token w) as [[client banned] w1] eqn:Hr.
    destruct (resolveIdentity_inv _ _ _ _ _ _ _ Hr) as (Hcl & _ & Htr & _).
    destruct (addClient_rejected _ _ _ _ _ _ _ Hr) as (msg & -> & _); [auto|].
    simpl. rewrite Hcl, Htr. eauto.
  - intros ip0 w Hn.
    destruct (admission_count_spec ip0 w) as [[_ E]|[Hlt _]]; [exact E|lia].
  - intros h Hh ip0.
    pose proof (solo_reachable_bound h Hh ip0).
    pose proof (counted_nonneg ip0 (in_flight h)). lia.
Qed.

(** X21. Under every interleaving of the pieces of admissions, every entry
    of the registry is filed under its own uuid, so two entries with one
    uuid are one entry. *)
Theorem conc_reachable_keyed h :
  conc_reachable h ->
  (forall k c, clients (hub_world h) !! k = Some c -> uuid c = k)
  /\ (forall k1 k2 c1 c2,
        clients (hub_world h) !! k1 = Some c1 ->
        clients (hub_world h) !! k2 = Some c2 ->
        uuid c1 = uuid c2 -> k1 = k2 /\ c1 = c2).
Proof.
  intros Hh.
  assert (Hk : forall k c, clients (hub_world h) !! k = Some c -> uuid c = k).
  { induction Hh as [h H0 _|h h' _ IH Hstep]; intros k c Hl.
    { rewrite H0, lookup_empty in Hl. discriminate. }
    destruct Hstep as [conn0 ip0 token h|before f after w Hst
                      |before f after w Hst|k0 h]; simpl in *.
    - unfold begin_admission in Hl.
      destruct (resolveIdentity conn0 ip0 token (hub_world h))
        as [[client banned] w1] eqn:Hr.
      destruct (resolveIdentity_inv _ _ _ _ _ _ _ Hr) as (Hcl & _ & _ & _).
      pose proof (admission_load_frame client banned ip0 w1) as [Hcl' _].
      destruct (admission_load client banned ip0 w1) as [ok w2].
      simpl in *. rewrite Hcl', Hcl in Hl. eauto.
    - unfold count_admission in Hl.
      destruct (admission_count_spec (fl_ip f) w) as [[_ E]|[_ E]];
        rewrite E in Hl; simpl in Hl; eauto.
    - rewrite admission_commit_clients in Hl.
      apply lookup_insert_Some in Hl as [[<- <-]|[_ Hl]]; [|eauto].
      apply uuid_registered.
    - apply lookup_delete_Some in Hl as [_ Hl]. eauto. }
  split; [exact Hk|].
  intros k1 k2 c1 c2 H1 H2 Hu.
  pose proof (Hk _ _ H1). pose proof (Hk _ _ H2).
  assert (k1 = k2) by congruence. subst k2. split; congruence.
Qed.

End Hub.

(** ** Cutting strings *)

Lemma substring_0_0 s : substring 0 0 s = "".
Proof. now destruct s. Qed.

Lemma HasPrefix_empty sep : sep <> "" -> strings.HasPrefix "" sep = false.
Proof. destruct sep; [congruence|reflexivity]. Qed.

Lemma HasPrefix_cut s sep :
  strings.HasPrefix s sep = true ->
  s = (sep ++ strings.from (String.length sep) s)%string.
Proof.
  revert s. induction sep as [|a sep IH]; intros s H; [reflexivity|].
  destruct s as [|b s]; [discriminate|]. simpl in H |- *.
  apply andb_true_iff in H as [Hab Hs].
  apply Ascii.eqb_eq in Hab as ->.
  change (String b s = String b (sep ++ strings.from (String.length sep) s)%string).
  f_equal. now apply IH.
Qed.

Lemma Index_unfold s sep :
  strings.Index s sep
  = if strings.HasPrefix s sep then Some 0%nat
    else match s with
         | EmptyString => None
         | String _ s' => S <$> strings.Index s' sep
         end.
Proof. now destruct s. Qed.

Lemma Index_cut s sep m :
  strings.Index s sep = Some m ->
  s = (substring 0 m s ++ sep
       ++ strings.from (m + String.length sep) s)%string.
Proof.
  revert m. induction s as [|a s IH]; intros m; rewrite Index_unfold.
  - destruct (strings.HasPrefix "" sep) eqn:Hp; [|discriminate].
    intros [= <-]. now apply HasPrefix_cut.
  - destruct (strings.HasPrefix (String a s) sep) eqn:Hp.
    + intros [= <-]. now apply HasPrefix_cut.
    + destruct (strings.Index s sep) as [m'|] eqn:Hi; [|discriminate].
      intros [= <-].
      change (String a s
              = String a (substring 0 m' s ++ sep
                          ++ strings.from (m' + String.length sep) s)%string).
      f_equal. now apply IH.
Qed.

Lemma genSplit_cons n s sep : exists f fs, strings.genSplit n s sep = f :: fs.
Proof.
  destruct n; simpl; [eauto|]. destruct (strings.Index s sep); eauto.
Qed.

Lemma concat_genSplit n s sep :
  String.concat sep (strings.genSplit n s sep) = s.
Proof.
  revert s. induction n as [|n IH]; intros s; [reflexivity|]. simpl.
  destruct (strings.Index s sep) as [m|] eqn:Hi; [|reflexivity].
  specialize (IH (strings.from (m + String.length sep) s)).
  destruct (genSplit_cons n (strings.from (m + String.length sep) s) sep)
    as (f & fs & E).
  rewrite E in IH |- *.
  change (String.concat sep (substring 0 m s :: f :: fs))
    with (substring 0 m s ++ sep ++ String.concat sep (f :: fs))%string.
  rewrite IH. symmetry. now apply Index_cut.
Qed.

Lemma concat_explode_le n s :
  (length s <= n)%nat -> concat (utf8.explode s) = s.
Proof.
  revert s. induction n as [|n IH]; intros s Hn.
  { destruct s; [reflexivity|simpl in Hn; lia]. }
  destruct s as [|b0 rest]; [reflexivity|]. simpl in Hn.
  assert (H1 : concat (utf8.explode rest) = rest) by (apply IH; lia).
  cbn [utf8.explode].
  repeat case_match; subst; cbn [concat app]; rewrite ?H1; try reflexivity;
    repeat f_equal; apply IH; simpl in *; lia.
Qed.

Lemma string_of_list_byte_app a b :
  string_of_list_byte (a ++ b)
  = (string_of_list_byte a ++ string_of_list_byte b)%string.
Proof.
  induction a as [|x a IH]; [reflexivity|].
  change (String (ascii_of_byte x) (string_of_list_byte (a ++ b))
          = String (ascii_of_byte x)
              (string_of_list_byte a ++ string_of_list_byte b)%string).
  now f_equal.
Qed.

Lemma append_empty_r s : (s ++ "")%string = s.
Proof.
  induction s as [|a s IH]; [reflexivity|].
  change (String a (s ++ "")%string = String a s). now f_equal.
Qed.

Lemma concat_empty_sep (l : list (list byte)) :
  String.concat "" (string_of_list_byte <$> l) = string_of_list_byte (concat l).
Proof.
  induction l as [|x l IH]; [reflexivity|].
  rewrite fmap_cons. cbn [concat]. rewrite string_of_list_byte_app, <- IH.
  destruct l as [|y l]; simpl.
  - now rewrite append_empty_r.
  - reflexivity.
Qed.

(** X14. Joining the pieces of [strings.Split s sep] with [sep] gives back
    [s], whatever the separator: the cut loses nothing. *)
Theorem Split_concat s sep : String.concat sep (strings.Split s sep) = s.
Proof.
  destruct sep as [|a sep]; simpl.
  - rewrite concat_empty_sep, (concat_explode_le (length (list_byte_of_string s)))
      by lia.
    apply string_of_list_byte_of_string.
  - apply concat_genSplit.
Qed.

Lemma HasPrefix_substring s sep n :
  strings.HasPrefix (substring 0 n s) sep = true ->
  strings.HasPrefix s sep = true.
Proof.
  revert s n. induction sep as [|a sep IH]; intros s n; [now destruct s|].
  destruct n as [|n], s as [|b s]; simpl; try discriminate.
  intros [Hab Hs]%andb_true_iff. rewrite Hab. simpl. eauto.
Qed.

Lemma Index_substring s sep m :
  sep <> "" ->
  strings.Index s sep = Some m ->
  strings.Index (substring 0 m s) sep = None.
Proof.
  intros Hsep. revert m. induction s as [|a s IH]; intros m;
    rewrite Index_unfold.
  - rewrite HasPrefix_empty by assumption. discriminate.
  - destruct (strings.HasPrefix (String a s) sep) eqn:Hp.
    + intros [= <-]. rewrite substring_0_0, Index_unfold.
      now rewrite HasPrefix_empty.
    + destruct (strings.Index s sep) as [m'|] eqn:Hi; [|discriminate].
      intros [= <-].
      change (substring 0 (S m') (String a s))
        with (String a (substring 0 m' s)).
      rewrite Index_unfold.
      destruct (strings.HasPrefix (String a (substring 0 m' s)) sep) eqn:Hq.
      * apply (HasPrefix_substring (String a s) sep (S m')) in Hq. congruence.
      * now rewrite (IH m').
Qed.

Lemma length_from n s :
  String.length (strings.from n s) = (String.length s - n)%nat.
Proof.
  revert s. induction n as [|n IH]; intros s; simpl; [lia|].
  destruct s; simpl; [reflexivity|apply IH].
Qed.

Lemma genSplit_free n s sep f :
  sep <> "" -> (String.length s <= n)%nat ->
  f ∈ strings.genSplit n s sep -> strings.Index f sep = None.
Proof.
  intros Hsep. revert s. induction n as [|n IH]; intros s Hn; simpl.
  - intros ->%list_elem_of_singleton.
    destruct s; [|simpl in Hn; lia]. rewrite Index_unfold.
    now rewrite HasPrefix_empty.
  - destruct (strings.Index s sep) as [m|] eqn:Hi.
    + intros [->|Hf]%elem_of_cons; [now apply Index_substring|].
      apply IH in Hf; [assumption|]. rewrite length_from.
      destruct sep; [congruence|]. simpl. lia.
    + now intros ->%list_elem_of_singleton.
Qed.

(** X15. Cut on a separator that is not empty, no piece of
    [strings.Split s sep] contains the separator: a field never holds the
    field delimiter, a frame never the message delimiter. *)
Theorem Split_fields_free s sep f :
  sep <> "" -> f ∈ strings.Split s sep -> strings.Index f sep = None.
Proof.
  intros Hsep Hf. destruct sep as [|a sep]; [congruence|].
  now apply (genSplit_free (String.length s) s (String a sep) f).
Qed.

(** ** The token store as handleSession uses it *)

Section TokenStore.

Variables (Conn Ext Request : Type).
Variables (store1 store2 :
             string -> Ext -> (string * string * Z * string * bool * bool) * Ext).
Variable getOrCreatePlayerData : string -> Ext -> (string * bool * bool) * Ext.
Variable getPlayerGameData : string -> Ext -> (string * Z * string) * Ext.
Variable URL_Query : Request -> gmap string (string * list string).
Variable getIp : Request -> string.
Variable Upgrade : Request -> Ext -> (Conn + error) * Ext.
Variable log_Println : error -> Ext -> Ext.

(** X16. [handleSession] asks the token store about tokens of exactly 32
    bytes and about nothing else: two token stores that agree on those
    tokens give the same result for every request. *)
Theorem handleSession_token_store r w :
  (forall t x, String.length t = 32%nat -> store1 t x = store2 t x) ->
  handleSession Conn Ext store1 getOrCreatePlayerData getPlayerGameData
    Request URL_Query getIp Upgrade log_Println r w
  = handleSession Conn Ext store2 getOrCreatePlayerData getPlayerGameData
      Request URL_Query getIp Upgrade log_Println r w.
Proof.
  intros Hagree. unfold handleSession, bind, on_ext.
  destruct (Upgrade r (ext Conn Ext w)) as [[conn0|err] x]; [|reflexivity].
  destruct (playerToken_cases Request URL_Query r) as [->|(rest & _ & Hl)].
  - reflexivity.
  - unfold addClient, resolveIdentity, bind, on_ext. cbv beta.
    destruct (negb (String.eqb (playerToken Request URL_Query r) ""));
      [|reflexivity].
    cbn [ext]. now rewrite (Hagree _ _ Hl).
Qed.

End TokenStore.

(** ** Valid UTF-8 *)

Lemma first_range b size lo hi :
  utf8.first b = Some (size, (lo, hi)) ->
  0xC2 <= b <= 0xF4 /\ 0x80 <= lo /\ hi <= 0xBF.
Proof.
  unfold utf8.first, utf8.locb, utf8.hicb.
  repeat match goal with
         | |- context [if ?c then _ else _] => destruct c eqn:?
         end;
    intros [= <- <- <-];
    rewrite ?andb_true_iff, ?Z.leb_le, ?Z.eqb_eq in *; lia.
Qed.

Lemma Valid_app_le n a b :
  (length a <= n)%nat ->
  utf8.Valid a = true -> utf8.Valid (a ++ b) = utf8.Valid b.
Proof.
  revert a. induction n as [|n IH]; intros a Hn Ha.
  { destruct a; [reflexivity|simpl in Hn; lia]. }
  destruct a as [|b0 rest]; [reflexivity|].
  simpl in Hn. cbn [utf8.Valid app] in *.
  destruct (utf8.val b0 <? utf8.RuneSelf); [apply IH; [lia|assumption]|].
  destruct (utf8.first (utf8.val b0)) as [[size [lo hi]]|]; [|discriminate].
  destruct size as [|[|[|[|[|size]]]]]; try discriminate.
  - destruct rest as [|c1 r]; [discriminate|]. cbn [app].
    apply andb_true_iff in Ha as [-> Hr]. simpl in Hn |- *.
    apply IH; [lia|assumption].
  - destruct rest as [|c1 [|c2 r]]; try discriminate. cbn [app].
    apply andb_true_iff in Ha as [[-> ->]%andb_true_iff Hr].
    simpl in Hn |- *. apply IH; [lia|assumption].
  - destruct rest as [|c1 [|c2 [|c3 r]]]; try discriminate. cbn [app].
    apply andb_true_iff in Ha
      as [[[-> ->]%andb_true_iff ->]%andb_true_iff Hr].
    simpl in Hn |- *. apply IH; [lia|assumption].
Qed.

(** X17. A valid buffer followed by any bytes is valid exactly when those
    bytes are: [utf8.Valid] reads one sequence after the other, so two valid
    buffers make a valid one. *)
Theorem Valid_app a b :
  utf8.Valid a = true -> utf8.Valid (a ++ b) = utf8.Valid b.
Proof. apply (Valid_app_le (length a)). lia. Qed.

Lemma Valid_bytes_le n p v :
  (length p <= n)%nat ->
  utf8.Valid p = true -> v ∈ p ->
  utf8.val v < 0x80 \/ (0x80 <= utf8.val v <= 0xBF)
  \/ (0xC2 <= utf8.val v <= 0xF4).
Proof.
  revert p. induction n as [|n IH]; intros p Hn Hp Hv.
  { destruct p; [now apply elem_of_nil in Hv|simpl in Hn; lia]. }
  destruct p as [|b0 rest]; [now apply elem_of_nil in Hv|].
  simpl in Hn. cbn [utf8.Valid] in Hp.
  destruct (Z.ltb_spec (utf8.val b0) utf8.RuneSelf) as [Hlt|Hge].
  { apply elem_of_cons in Hv as [->|Hv];
      [left; unfold utf8.RuneSelf in Hlt; lia|].
    apply (IH rest); [lia|assumption|assumption]. }
  destruct (utf8.first (utf8.val b0)) as [[size [lo hi]]|] eqn:Hf;
    [|discriminate].
  apply first_range in Hf as (Hb0 & Hlo & Hhi).
  unfold utf8.within, utf8.locb, utf8.hicb in Hp.
  apply elem_of_cons in Hv as [->|Hv]; [right; right; lia|].
  destruct size as [|[|[|[|[|size]]]]]; try discriminate.
  - destruct rest as [|c1 r]; [discriminate|].
    apply andb_true_iff in Hp as [[H1 H2]%andb_true_iff Hr].
    apply Z.leb_le in H1, H2.
    apply elem_of_cons in Hv as [->|Hv]; [right; left; lia|].
    simpl in Hn. apply (IH r); [lia|assumption|assumption].
  - destruct rest as [|c1 [|c2 r]]; try discriminate.
    apply andb_true_iff in Hp
      as [[[H1 H2]%andb_true_iff [H3 H4]%andb_true_iff]%andb_true_iff Hr].
    apply Z.leb_le in H1, H2, H3, H4.
    apply elem_of_cons in Hv as [->|Hv]; [right; left; lia|].
    apply elem_of_cons in Hv as [->|Hv]; [right; left; lia|].
    simpl in Hn. apply (IH r); [lia|assumption|assumption].
  - destruct rest as [|c1 [|c2 [|c3 r]]]; try discriminate.
    apply andb_true_iff in Hp
      as [[[[H1 H2]%andb_true_iff [H3 H4]%andb_true_iff]%andb_true_iff
           [H5 H6]%andb_true_iff]%andb_true_iff Hr].
    apply Z.leb_le in H1, H2, H3, H4, H5, H6.
    apply elem_of_cons in Hv as [->|Hv]; [right; left; lia|].
    apply elem_of_cons in Hv as [->|Hv]; [right; left; lia|].
    apply elem_of_cons in Hv as [->|Hv]; [right; left; lia|].
    simpl in Hn. apply (IH r); [lia|assumption|assumption].
Qed.

(** X18. The bytes 0xC0, 0xC1 and 0xF5 to 0xFF occur in no valid buffer: a
    buffer that holds one of them is not valid UTF-8. *)
Theorem Valid_never_bytes p v :
  v ∈ p ->
  utf8.val v = 0xC0 \/ utf8.val v = 0xC1 \/ 0xF5 <= utf8.val v ->
  utf8.Valid p = false.
Proof.
  intros Hv Hbad. destruct (utf8.Valid p) eqn:Hp; [|reflexivity].
  pose proof (Valid_bytes_le (length p) p v ltac:(lia) Hp Hv). lia.
Qed.

(** ** The game-data store as addClient uses it *)

Section GameData.

Variables (Conn Ext : Type).
Variable getPlayerDataFromToken :
  string -> Ext -> (string * string * Z * string * bool * bool) * Ext.
Variable getOrCreatePlayerData : string -> Ext -> (string * bool * bool) * Ext.
Variables (data1 data2 : string -> Ext -> (string * Z * string) * Ext).

(** X20. A rejected admission never fetches the player's game data: with
    any two game-data stores, [addClient] does the same. *)
Theorem addClient_rejected_no_game_data conn0 ip0 token w client banned w1 :
  resolveIdentity Conn Ext getPlayerDataFromToken getOrCreatePlayerData
    conn0 ip0 token w = ((client, banned), w1) ->
  banned = true \/ is_Some (clients Conn Ext w !! uuid Conn client)
  \/ 3 <= sameIpCount Conn ip0 (clients Conn Ext w) ->
  addClient Conn Ext getPlayerDataFromToken getOrCreatePlayerData data1
    conn0 ip0 token w
  = addClient Conn Ext getPlayerDataFromToken getOrCreatePlayerData data2
      conn0 ip0 token w.
Proof.
  intros Hr Hrej.
  destruct (addClient_rejected Conn Ext getPlayerDataFromToken
              getOrCreatePlayerData data1 _ _ _ _ _ _ _ Hr Hrej)
    as (m1 & -> & ->).
  destruct (addClient_rejected Conn Ext getPlayerDataFromToken
              getOrCreatePlayerData data2 _ _ _ _ _ _ _ Hr Hrej)
    as (m2 & -> & ->).
  reflexivity.
Qed.

End GameData.

(** ** The minigame table *)

(** C10. [getRoomMinigames] is a function of the game name and the room id
    alone, it never returns more than one minigame, and it returns one
    exactly for ("yume", 155), ("2kki", 102), ("2kki", 618) and
    ("2kki", 344); for every other input the list is empty. *)
Theorem getRoomMinigames_table (serverConfig : Config) (roomId : Z) :
  (forall other : Config,
      GameName other = GameName serverConfig ->
      getRoomMinigames other roomId = getRoomMinigames serverConfig roomId)
  /\ (length (getRoomMinigames serverConfig roomId) <= 1)%nat
  /\ (getRoomMinigames serverConfig roomId <> [] <->
      (GameName serverConfig = "yume" /\ roomId = 155)
      \/ (GameName serverConfig = "2kki" /\ roomId = 102)
      \/ (GameName serverConfig = "2kki" /\ roomId = 618)
      \/ (GameName serverConfig = "2kki" /\ roomId = 344))
  /\ (~ ((GameName serverConfig = "yume" /\ roomId = 155)
         \/ (GameName serverConfig = "2kki" /\ roomId = 102)
         \/ (GameName serverConfig = "2kki" /\ roomId = 618)
         \/ (GameName serverConfig = "2kki" /\ roomId = 344)) ->
      getRoomMinigames serverConfig roomId = []).
Proof.
  split; [|].
  { intros other Hg. unfold getRoomMinigames. now rewrite Hg. }
  unfold getRoomMinigames.
  destruct (String.eqb_spec (GameName serverConfig) "yume") as [Hy|Hy].
  { rewrite Hy.
    destruct (Z.eqb_spec roomId 155) as [->|Hr]; simpl;
      (split; [lia|]); split;
      try (split; [intros _|intros _; discriminate]);
      try (split; [congruence|]); intuition (try discriminate; try lia). }
  destruct (String.eqb_spec (GameName serverConfig) "2kki") as [Hk|Hk].
  { rewrite Hk.
    destruct (Z.eqb_spec roomId 102) as [->|H1];
      [|destruct (Z.eqb_spec roomId 618) as [->|H2];
        [|destruct (Z.eqb_spec roomId 344) as [->|H3]]]; simpl;
      (split; [lia|]); split;
      try (split; [intros _|intros _; discriminate]);
      try (split; [congruence|]); intuition (try discriminate; try lia). }
  simpl. split; [lia|]. split; [|reflexivity].
  split; [congruence|]. intuition congruence.
Qed.

(** ** A small hub, to run the hub on *)

(** Connections are numbered; the collaborators keep no state. The identity
    store knows one banned account and takes every other token of 32
    characters for the account of that name; an address gets the anonymous
    identity of that address. Nobody is in a party. *)
Definition demo_banned_token : string := "ffffffffffffffffffffffffffffffff".

Definition demo_getPlayerDataFromToken (token : string) (x : unit)
    : (string * string * Z * string * bool * bool) * unit :=
  if String.eqb token demo_banned_token then
    (("acct:mallory", "mallory", 0, "", true, false), x)
  else if (String.length token =? 32)%nat then
    (("acct:" ++ token, token, 1, "", false, false), x)%string
  else (("", "", 0, "", false, false), x).

Definition demo_getOrCreatePlayerData (ip0 : string) (x : unit)
    : (string * bool * bool) * unit :=
  (("anon:" ++ ip0, false, false), x)%string.

Definition demo_getPlayerGameData (uuid0 : string) (x : unit)
    : (string * Z * string) * unit :=
  (("", 0, ""), x).

Definition demo_ok (sender : SessionClient nat) : M nat unit (option error) :=
  fun w => (None, w).

Definition demo_ok_fields (msgFields : list string) (sender : SessionClient nat)
    : M nat unit (option error) :=
  fun w => (None, w).

Definition demo_handlePt (sender : SessionClient nat) : M nat unit (option error) :=
  fun w => (Some (errors_New "player not in a party"), w).

(** U+FFFF and U+FFFE in UTF-8. *)
Definition demo_delim : string := string_of_list_byte [xef; xbf; xbf].
Definition demo_mdelim : string := string_of_list_byte [xef; xbf; xbe].

Definition demo_addClient : nat -> string -> string -> M nat unit unit :=
  addClient nat unit demo_getPlayerDataFromToken demo_getOrCreatePlayerData
    demo_getPlayerGameData.

Definition demo_resolveIdentity
    : nat -> string -> string -> M nat unit (SessionClient nat * bool) :=
  resolveIdentity nat unit demo_getPlayerDataFromToken demo_getOrCreatePlayerData.

Definition demo_processMsg (d : string)
    : string -> SessionClient nat -> M nat unit (option error) :=
  processMsg nat unit demo_ok demo_ok_fields demo_ok_fields demo_ok_fields
    demo_ok_fields demo_handlePt demo_ok demo_ok d.

Definition demo_processMsgs
    : SessionClient nat -> list byte -> M nat unit (list error) :=
  processMsgs nat unit demo_ok demo_ok_fields demo_ok_fields demo_ok_fields
    demo_ok_fields demo_handlePt demo_ok demo_ok demo_delim demo_mdelim.

Definition demo_reachable : World nat unit -> Prop :=
  reachable nat unit demo_getPlayerDataFromToken demo_getOrCreatePlayerData
    demo_getPlayerGameData.

(** The hub at start, after one anonymous admission from 10.0.0.1, and after
    three accounts connected from 10.0.0.2. *)
Definition demo_w0 : World nat unit :=
  {| clients := ∅; session := {| lastId := 0 |}; trace := []; ext := tt |}.

Definition demo_w1 : World nat unit :=
  (demo_addClient 1%nat "10.0.0.1" "" demo_w0).2.

Definition demo_w3 : World nat unit :=
  (demo_addClient 4%nat "10.0.0.2" "cccccccccccccccccccccccccccccccc"
     (demo_addClient 3%nat "10.0.0.2" "bbbbbbbbbbbbbbbbbbbbbbbbbbbbbbbb"
        (demo_addClient 2%nat "10.0.0.2" "aaaaaaaaaaaaaaaaaaaaaaaaaaaaaaaa"
           demo_w0).2).2).2.

Definition demo_anon : SessionClient nat :=
  (demo_resolveIdentity 1%nat "10.0.0.1" "" demo_w0).1.1.

Definition demo_first : SessionClient nat :=
  registered nat unit demo_getPlayerGameData demo_anon demo_w0.

Definition demo_mallory : SessionClient nat :=
  (demo_resolveIdentity 9%nat "10.0.0.9" demo_banned_token demo_w0).1.1.

(** Three frames: a chat line, a frame with a tag the hub does not know, a
    party request. *)
Definition demo_frame_gsay : string := "gsay" ++ demo_delim ++ "hi".
Definition demo_frame_bad : string := "badtag" ++ demo_delim ++ "x".
Definition demo_buffer : list byte :=
  list_byte_of_string
    (demo_frame_gsay ++ demo_mdelim ++ demo_frame_bad ++ demo_mdelim ++ "pt").


Lemma demo_reachable_w3 : demo_reachable demo_w3.
Proof.
  unfold demo_reachable, demo_w3, demo_addClient.
  do 3 (eapply reachable_step; [|apply step_addClient]).
  apply reachable_init; reflexivity.
Qed.

Lemma not_known_badtag : "badtag" ∉ known_tags.
Proof.
  unfold known_tags. rewrite !elem_of_cons, elem_of_nil.
  intuition discriminate.
Qed.

(** *** The claims on the small hub *)


(** The empty frame cut on the empty separator has no field. *)
Lemma processMsg_no_fields_witness :
  strings.Split "" "" = []
  /\ demo_processMsg "" "" demo_anon demo_w0 = (None, demo_w0).
Proof.
  split; [reflexivity|].
  apply (processMsg_no_fields nat unit demo_ok demo_ok_fields demo_ok_fields
           demo_ok_fields demo_ok_fields demo_handlePt demo_ok demo_ok
           "" "" demo_anon demo_w0).
  reflexivity.
Defined.

(** The banned account is turned away from the empty hub. *)
Lemma addClient_banned_rejected_witness :
  demo_resolveIdentity 9%nat "10.0.0.9" demo_banned_token demo_w0
  = ((demo_mallory, true), demo_w0)
  /\ clients _ _ (demo_addClient 9%nat "10.0.0.9" demo_banned_token demo_w0).2 = ∅
  /\ trace _ _ (demo_addClient 9%nat "10.0.0.9" demo_banned_token demo_w0).2
     = [Ev_writeErrLog nat "10.0.0.9" "session" "player is banned"].
Proof.
  split; [reflexivity|].
  destruct (addClient_banned_rejected nat unit demo_getPlayerDataFromToken
              demo_getOrCreatePlayerData demo_getPlayerGameData
              9%nat "10.0.0.9" demo_banned_token demo_w0 demo_mallory demo_w0
              eq_refl) as (Hc & Ht & _).
  split; [exact Hc|exact Ht].
Defined.

(** A tab in the buffer. *)
Lemma processMsgs_rejects_buffer_witness :
  (exists v, v ∈ [x09] /\ utf8.val v < 32)
  /\ exists msg,
       demo_processMsgs demo_anon [x09] demo_w0 = ([errors_New msg], demo_w0).
Proof.
  assert (H : exists v, v ∈ [x09] /\ utf8.val v < 32).
  { exists x09. split; [apply list_elem_of_singleton; reflexivity|reflexivity]. }
  split; [exact H|].
  destruct (processMsgs_rejects_buffer nat unit demo_ok demo_ok_fields
              demo_ok_fields demo_ok_fields demo_ok_fields demo_handlePt
              demo_ok demo_ok demo_delim demo_mdelim demo_anon [x09] demo_w0
              (or_intror (or_introl H))) as (msg & Hm & _).
  exists msg. exact Hm.
Defined.



(** A fourth connection from 10.0.0.2. *)
Lemma addClient_ip_limit_witness :
  3 <= sameIpCount nat "10.0.0.2" (clients _ _ demo_w3)
  /\ clients _ _ (demo_addClient 5%nat "10.0.0.2" "" demo_w3).2
     = clients _ _ demo_w3
  /\ trace _ _ (demo_addClient 5%nat "10.0.0.2" "" demo_w3).2
     = trace _ _ demo_w3
       ++ [Ev_writeErrLog nat "10.0.0.2" "session" "too many connections from ip"]
  /\ sameIpCount nat "10.0.0.2" (clients _ _ demo_w3) <= 3.
Proof.
  pose proof (addClient_ip_limit nat unit demo_getPlayerDataFromToken
                demo_getOrCreatePlayerData demo_getPlayerGameData)
    as (H1 & H2 & H3).
  assert (Hn : 3 <= sameIpCount nat "10.0.0.2" (clients _ _ demo_w3))
    by (vm_compute; discriminate).
  assert (Hr : demo_resolveIdentity 5%nat "10.0.0.2" "" demo_w3
               = ((set_ip_data nat (new_client nat 5%nat "10.0.0.2")
                     ("anon:10.0.0.2", false), false), demo_w3))
    by (vm_compute; reflexivity).
  assert (Hl : clients _ _ demo_w3 !! "anon:10.0.0.2" = None)
    by (vm_compute; reflexivity).
  split; [exact Hn|]. split; [|split].
  - exact (proj1 (H1 5%nat "10.0.0.2" "" demo_w3 Hn)).
  - exact (H2 5%nat "10.0.0.2" "" demo_w3 _ demo_w3 Hr Hl Hn).
  - exact (H3 demo_w3 demo_reachable_w3 "10.0.0.2").
Defined.

(** The first admission: an anonymous client with no badge. *)
Lemma addClient_hello_witness :
  demo_resolveIdentity 1%nat "10.0.0.1" "" demo_w0 = ((demo_anon, false), demo_w0)
  /\ clients _ _ demo_w0 !! uuid _ demo_anon = None
  /\ sameIpCount nat "10.0.0.1" (clients _ _ demo_w0) < 3
  /\ exists c,
       badge _ c = "null"
       /\ trace _ _ (demo_addClient 1%nat "10.0.0.1" "" demo_w0).2
          = [Ev_sendMsg nat c [any_string "s"; any_string "anon:10.0.0.1";
                               any_int 0; any_bool false; any_string "null"];
             Ev_go nat c msgProcessor; Ev_go nat c msgWriter;
             Ev_go nat c msgReader;
             Ev_writeLog nat "10.0.0.1" "session" "connect" 200].
Proof.
  assert (Hr : demo_resolveIdentity 1%nat "10.0.0.1" "" demo_w0
               = ((demo_anon, false), demo_w0)) by reflexivity.
  assert (Hl : clients _ _ demo_w0 !! uuid _ demo_anon = None)
    by (vm_compute; reflexivity).
  assert (Hn : sameIpCount nat "10.0.0.1" (clients _ _ demo_w0) < 3)
    by (vm_compute; reflexivity).
  split; [exact Hr|]. split; [exact Hl|]. split; [exact Hn|].
  destruct (addClient_hello nat unit demo_getPlayerDataFromToken
              demo_getOrCreatePlayerData demo_getPlayerGameData
              1%nat "10.0.0.1" "" demo_w0 demo_anon demo_w0 Hr Hl Hn)
    as (c & w2 & _ & _ & _ & Hb & _ & _ & _ & Ht).
  exists c. split; [exact Hb|].
  change (badge nat c = "null") in Hb.
  rewrite Hb in Ht. exact Ht.
Defined.

(** The second connection of 10.0.0.1 changes neither registry nor counter. *)
Lemma addClient_rejected_hub_unchanged_witness :
  is_Some (clients _ _ demo_w1 !! "anon:10.0.0.1")
  /\ clients _ _ (demo_addClient 7%nat "10.0.0.1" "" demo_w1).2
     = clients _ _ demo_w1
  /\ lastId (session _ _ (demo_addClient 7%nat "10.0.0.1" "" demo_w1).2) = 1.
Proof.
  assert (Hr : demo_resolveIdentity 7%nat "10.0.0.1" "" demo_w1
               = ((set_ip_data nat (new_client nat 7%nat "10.0.0.1")
                     ("anon:10.0.0.1", false), false), demo_w1))
    by (vm_compute; reflexivity).
  assert (Hl : is_Some (clients _ _ demo_w1 !! "anon:10.0.0.1"))
    by (vm_compute; eauto).
  split; [exact Hl|].
  exact (addClient_rejected_hub_unchanged nat unit demo_getPlayerDataFromToken
           demo_getOrCreatePlayerData demo_getPlayerGameData
           7%nat "10.0.0.1" "" demo_w1 _ false demo_w1 Hr
           (or_intror (or_introl Hl))).
Defined.

(** A party request from a client without a party, and an unknown tag. *)
Lemma processMsg_pt_error_witness :
  demo_processMsg demo_delim "pt" demo_anon demo_w0
  = (Some (errors_New "player not in a party"),
     {| clients := ∅; session := {| lastId := 0 |};
        trace := [Ev_sendMsg nat demo_anon [any_string "pt"; any_string "null"]];
        ext := tt |})
  /\ (demo_processMsg demo_delim demo_frame_bad demo_anon demo_w0
      = (Some (errors_New "unknown message type"), demo_w0) ->
      ("badtag" ∉ known_tags) /\ demo_w0 = demo_w0).
Proof.
  pose proof (processMsg_pt_error nat unit demo_ok demo_ok_fields demo_ok_fields
                demo_ok_fields demo_ok_fields demo_handlePt demo_ok demo_ok
                demo_delim) as [H1 H2].
  split.
  - exact (H1 "pt" demo_anon demo_w0 [] (errors_New "player not in a party")
             demo_w0 eq_refl eq_refl).
  - intros Hm.
    destruct (H2 demo_frame_bad demo_anon demo_w0 "badtag" ["x"]
                (errors_New "unknown message type") demo_w0 eq_refl
                ltac:(discriminate) Hm)
      as [[E _]|[[E _]|[[E _]|[[E _]|[[E _]|[[E _]|[[E _]|(Hk & _ & Hw)]]]]]]];
      try discriminate E.
    split; [exact Hk|exact Hw].
Defined.

(** A chat line, an unknown frame and a party request in one buffer. *)
Lemma processMsgs_unknown_frame_witness :
  well_formed demo_buffer
  /\ strings.Split (string_of_list_byte demo_buffer) demo_mdelim
     = [demo_frame_gsay] ++ demo_frame_bad :: ["pt"]
  /\ strings.Split demo_frame_bad demo_delim = ["badtag"; "x"]
  /\ demo_processMsgs demo_anon demo_buffer demo_w0
     = ([errors_New "unknown message type"; errors_New "player not in a party"],
        {| clients := ∅; session := {| lastId := 0 |};
           trace := [Ev_writeLog nat "10.0.0.1" "session" demo_frame_gsay 200;
                     Ev_sendMsg nat demo_anon [any_string "pt"; any_string "null"]];
           ext := tt |}).
Proof.
  assert (Hwf : well_formed demo_buffer).
  { split; [vm_compute; discriminate|].
    split; [apply has_control_byte_false; reflexivity|reflexivity]. }
  assert (Hs : strings.Split (string_of_list_byte demo_buffer) demo_mdelim
               = [demo_frame_gsay] ++ demo_frame_bad :: ["pt"]) by reflexivity.
  assert (Hf : strings.Split demo_frame_bad demo_delim = ["badtag"; "x"])
    by reflexivity.
  split; [exact Hwf|]. split; [exact Hs|]. split; [exact Hf|].
  exact (proj2 (processMsgs_unknown_frame nat unit demo_ok demo_ok_fields
                  demo_ok_fields demo_ok_fields demo_ok_fields demo_handlePt
                  demo_ok demo_ok demo_delim demo_mdelim demo_anon demo_buffer
                  demo_w0 [demo_frame_gsay] demo_frame_bad ["pt"] "badtag" ["x"]
                  Hwf Hs Hf not_known_badtag)).
Defined.

(** *** More of the small hub: requests *)

(** A request: the peer's address, the token of its query if it has one, and
    whether it asks for a websocket. *)
Record demo_Request := {
  demo_addr : string;
  demo_token : option string;
  demo_websocket : bool
}.

Definition demo_URL_Query (r : demo_Request) : gmap string (string * list string) :=
  match demo_token r with
  | Some t => {[ "token" := (t, []) ]}
  | None => ∅
  end.

Definition demo_Upgrade (r : demo_Request) (x : unit) : (nat + error) * unit :=
  if demo_websocket r then (inl 1%nat, x)
  else (inr (errors_New "websocket: the client is not using the websocket protocol"), x).

Definition demo_log_Println (err : error) (x : unit) : unit := x.

Definition demo_handleSession : demo_Request -> M nat unit unit :=
  handleSession nat unit demo_getPlayerDataFromToken demo_getOrCreatePlayerData
    demo_getPlayerGameData demo_Request demo_URL_Query demo_addr demo_Upgrade
    demo_log_Println.

(** A token store that, unlike the one above, bans whoever presents a token
    that is not 32 bytes long. *)
Definition demo_strict_store (token : string) (x : unit)
    : (string * string * Z * string * bool * bool) * unit :=
  if (String.length token =? 32)%nat then demo_getPlayerDataFromToken token x
  else (("acct:" ++ token, token, 0, "", true, false), x)%string.

Definition demo_alice_token : string := "aaaaaaaaaaaaaaaaaaaaaaaaaaaaaaaa".

Definition demo_alice : SessionClient nat :=
  (demo_resolveIdentity 2%nat "10.0.0.2" demo_alice_token demo_w0).1.1.

(** *** The further properties on the small hub *)

(** An account that presents its token. *)
Lemma resolveIdentity_account_witness :
  demo_resolveIdentity 2%nat "10.0.0.2" demo_alice_token demo_w0
  = ((demo_alice, false), demo_w0)
  /\ account _ demo_alice = true
  /\ uuid _ demo_alice = "acct:aaaaaaaaaaaaaaaaaaaaaaaaaaaaaaaa".
Proof.
  assert (Hr : demo_resolveIdentity 2%nat "10.0.0.2" demo_alice_token demo_w0
               = ((demo_alice, false), demo_w0)) by reflexivity.
  split; [exact Hr|]. split; [reflexivity|].
  pose proof (resolveIdentity_account nat unit demo_getPlayerDataFromToken
                demo_getOrCreatePlayerData 2%nat "10.0.0.2" demo_alice_token
                demo_w0 demo_alice false demo_w0 Hr) as H.
  exact (proj1 (proj2 (proj2 H))).
Defined.

(** The first admission into the empty hub. *)
Lemma addClient_registers_witness :
  demo_resolveIdentity 1%nat "10.0.0.1" "" demo_w0 = ((demo_anon, false), demo_w0)
  /\ clients _ _ demo_w0 !! uuid _ demo_anon = None
  /\ sameIpCount nat "10.0.0.1" (clients _ _ demo_w0) < 3
  /\ lastId (session _ _ (demo_addClient 1%nat "10.0.0.1" "" demo_w0).2)
     = wrap_int (0 + 1)
  /\ size (clients _ _ (demo_addClient 1%nat "10.0.0.1" "" demo_w0).2) = 1%nat.
Proof.
  assert (Hr : demo_resolveIdentity 1%nat "10.0.0.1" "" demo_w0
               = ((demo_anon, false), demo_w0)) by reflexivity.
  assert (Hl : clients _ _ demo_w0 !! uuid _ demo_anon = None)
    by (vm_compute; reflexivity).
  assert (Hn : sameIpCount nat "10.0.0.1" (clients _ _ demo_w0) < 3)
    by (vm_compute; reflexivity).
  split; [exact Hr|]. split; [exact Hl|]. split; [exact Hn|].
  destruct (addClient_registers nat unit demo_getPlayerDataFromToken
              demo_getOrCreatePlayerData demo_getPlayerGameData
              1%nat "10.0.0.1" "" demo_w0 demo_anon demo_w0 Hr Hl Hn)
    as (_ & Hid & Hsz & _).
  split; [exact Hid|exact Hsz].
Defined.

(** From the hub with one client, whose id is 0 and whose counter is 1, to
    the hub with two. *)
Lemma addClient_ids_ok_witness :
  ids_ok nat unit demo_w1
  /\ - 2 ^ 63 <= lastId (session _ _ demo_w1) < 2 ^ 63 - 1
  /\ size (clients _ _ demo_w1) = 1%nat
  /\ size (clients _ _ (demo_addClient 8%nat "10.0.0.8" "" demo_w1).2) = 2%nat
  /\ ids_ok nat unit (demo_addClient 8%nat "10.0.0.8" "" demo_w1).2.
Proof.
  assert (H0 : ids_ok nat unit demo_w0).
  { split; intros; discriminate. }
  assert (Hb0 : - 2 ^ 63 <= lastId (session _ _ demo_w0) < 2 ^ 63 - 1)
    by (split; [discriminate|reflexivity]).
  assert (H1 : ids_ok nat unit demo_w1).
  { exact (addClient_ids_ok nat unit demo_getPlayerDataFromToken
             demo_getOrCreatePlayerData demo_getPlayerGameData
             1%nat "10.0.0.1" "" demo_w0 H0 Hb0). }
  assert (Hb1 : - 2 ^ 63 <= lastId (session _ _ demo_w1) < 2 ^ 63 - 1)
    by (vm_compute; split; [discriminate|reflexivity]).
  split; [exact H1|]. split; [exact Hb1|].
  split; [vm_compute; reflexivity|]. split; [vm_compute; reflexivity|].
  exact (addClient_ids_ok nat unit demo_getPlayerDataFromToken
           demo_getOrCreatePlayerData demo_getPlayerGameData
           8%nat "10.0.0.8" "" demo_w1 H1 Hb1).
Defined.

(** The registered client stays when another address connects. *)
Lemma addClient_keeps_witness :
  clients _ _ demo_w1 !! "anon:10.0.0.1" = Some demo_first
  /\ clients _ _ (demo_addClient 8%nat "10.0.0.8" "" demo_w1).2
     !! "anon:10.0.0.1" = Some demo_first.
Proof.
  assert (Hl : clients _ _ demo_w1 !! "anon:10.0.0.1" = Some demo_first)
    by (vm_compute; reflexivity).
  split; [exact Hl|].
  exact (addClient_keeps nat unit demo_getPlayerDataFromToken
           demo_getOrCreatePlayerData demo_getPlayerGameData
           8%nat "10.0.0.8" "" demo_w1 "anon:10.0.0.1" demo_first Hl).
Defined.

(** A chat line that its handler takes. *)
Lemma processMsg_ok_logged_witness :
  strings.Split demo_frame_gsay demo_delim = ["gsay"; "hi"]
  /\ exists w1,
       (demo_processMsg demo_delim demo_frame_gsay demo_anon demo_w0).2
       = {| clients := clients _ _ w1; session := session _ _ w1;
            trace := trace _ _ w1
                     ++ [Ev_writeLog nat "10.0.0.1" "session" demo_frame_gsay 200];
            ext := ext _ _ w1 |}.
Proof.
  assert (Hs : strings.Split demo_frame_gsay demo_delim = ["gsay"; "hi"])
    by reflexivity.
  split; [exact Hs|].
  destruct (processMsg_ok_logged nat unit demo_ok demo_ok_fields demo_ok_fields
              demo_ok_fields demo_ok_fields demo_handlePt demo_ok demo_ok
              demo_delim demo_frame_gsay demo_anon demo_w0 "gsay" ["hi"]
              (demo_processMsg demo_delim demo_frame_gsay demo_anon demo_w0).2
              Hs eq_refl) as (w1 & Hw & _).
  exists w1. exact Hw.
Defined.

(** The empty buffer with the delimiters U+FFFF and U+FFFE. *)
Lemma processMsgs_empty_buffer_witness :
  demo_delim <> "" /\ demo_mdelim <> ""
  /\ demo_processMsgs demo_anon [] demo_w0
     = ([errors_New "unknown message type"], demo_w0).
Proof.
  assert (Hd : demo_delim <> "") by discriminate.
  assert (Hm : demo_mdelim <> "") by discriminate.
  split; [exact Hd|]. split; [exact Hm|].
  exact (processMsgs_empty_buffer nat unit demo_ok demo_ok_fields
           demo_ok_fields demo_ok_fields demo_ok_fields demo_handlePt demo_ok
           demo_ok demo_delim demo_mdelim demo_anon demo_w0 Hd Hm).
Defined.

(** The two bytes of "ep". *)
Lemma processMsgs_printable_ascii_witness :
  Z.of_nat (length [x65; x70]) <= 4096
  /\ (forall v, v ∈ [x65; x70] -> 32 <= utf8.val v < 128)
  /\ well_formed [x65; x70].
Proof.
  assert (Hl : Z.of_nat (length [x65; x70]) <= 4096) by discriminate.
  assert (Hb : forall v, v ∈ [x65; x70] -> 32 <= utf8.val v < 128).
  { intros v Hv.
    repeat (apply elem_of_cons in Hv as [->|Hv];
            [split; [discriminate|reflexivity]|]).
    now apply elem_of_nil in Hv. }
  split; [exact Hl|]. split; [exact Hb|].
  exact (proj1 (processMsgs_printable_ascii nat unit demo_ok demo_ok_fields
                  demo_ok_fields demo_ok_fields demo_ok_fields demo_handlePt
                  demo_ok demo_ok demo_delim demo_mdelim demo_anon [x65; x70]
                  demo_w0 Hl Hb)).
Defined.

(** A plain HTTP request. *)
Lemma handleSession_upgrade_failed_witness :
  demo_handleSession
    {| demo_addr := "10.0.0.5"; demo_token := None; demo_websocket := false |}
    demo_w0
  = (tt, demo_w0).
Proof.
  exact (handleSession_upgrade_failed nat unit demo_getPlayerDataFromToken
           demo_getOrCreatePlayerData demo_getPlayerGameData demo_Request
           demo_URL_Query demo_addr demo_Upgrade demo_log_Println
           {| demo_addr := "10.0.0.5"; demo_token := None;
              demo_websocket := false |}
           demo_w0 _ tt eq_refl).
Defined.

(** A token of five bytes. *)
Lemma handleSession_token_ignored_witness :
  demo_handleSession
    {| demo_addr := "10.0.0.1"; demo_token := Some "short";
       demo_websocket := true |} demo_w0
  = demo_addClient 1%nat "10.0.0.1" "" demo_w0.
Proof.
  apply (handleSession_token_ignored nat unit demo_getPlayerDataFromToken
           demo_getOrCreatePlayerData demo_getPlayerGameData demo_Request
           demo_URL_Query demo_addr demo_Upgrade demo_log_Println
           {| demo_addr := "10.0.0.1"; demo_token := Some "short";
              demo_websocket := true |} demo_w0 1%nat tt eq_refl).
  intros t rest Hq. vm_compute in Hq. injection Hq as <- _. discriminate.
Defined.

(** The strict store and the lenient one agree on tokens of 32 bytes. *)
Lemma handleSession_token_store_witness :
  demo_handleSession
    {| demo_addr := "10.0.0.1"; demo_token := Some "short";
       demo_websocket := true |} demo_w0
  = handleSession nat unit demo_strict_store demo_getOrCreatePlayerData
      demo_getPlayerGameData demo_Request demo_URL_Query demo_addr
      demo_Upgrade demo_log_Println
      {| demo_addr := "10.0.0.1"; demo_token := Some "short";
         demo_websocket := true |} demo_w0.
Proof.
  apply (handleSession_token_store nat unit demo_Request
           demo_getPlayerDataFromToken demo_strict_store
           demo_getOrCreatePlayerData demo_getPlayerGameData demo_URL_Query
           demo_addr demo_Upgrade demo_log_Println).
  intros t x Hl. unfold demo_strict_store. rewrite Hl. reflexivity.
Defined.

(** The fields of "gsay,hi" cut on the comma. *)
Lemma Split_fields_free_witness :
  "," <> "" /\ "hi" ∈ strings.Split "gsay,hi" ","
  /\ strings.Index "hi" "," = None.
Proof.
  assert (Hs : "," <> "") by discriminate.
  assert (Hf : "hi" ∈ strings.Split "gsay,hi" ",")
    by (apply elem_of_cons; right; apply elem_of_cons; left; reflexivity).
  split; [exact Hs|]. split; [exact Hf|].
  exact (Split_fields_free "gsay,hi" "," "hi" Hs Hf).
Defined.

(** U+00E9 followed by a letter, and by a lone continuation byte. *)
Lemma Valid_app_witness :
  utf8.Valid [xc3; xa9] = true
  /\ utf8.Valid ([xc3; xa9] ++ [x61]) = utf8.Valid [x61]
  /\ utf8.Valid ([xc3; xa9] ++ [xa9]) = utf8.Valid [xa9].
Proof.
  assert (Ha : utf8.Valid [xc3; xa9] = true) by reflexivity.
  split; [exact Ha|]. split.
  - exact (Valid_app [xc3; xa9] [x61] Ha).
  - exact (Valid_app [xc3; xa9] [xa9] Ha).
Defined.

(** The overlong lead byte 0xC0. *)
Lemma Valid_never_bytes_witness :
  xc0 ∈ [x61; xc0; x80] /\ utf8.val xc0 = 0xC0
  /\ utf8.Valid [x61; xc0; x80] = false.
Proof.
  assert (Hv : xc0 ∈ [x61; xc0; x80])
    by (apply elem_of_cons; right; apply elem_of_cons; left; reflexivity).
  split; [exact Hv|]. split; [reflexivity|].
  exact (Valid_never_bytes [x61; xc0; x80] xc0 Hv (or_introl eq_refl)).
Defined.

(** A game-data store with something in it. *)
Definition demo_sprites (uuid0 : string) (x : unit)
    : (string * Z * string) * unit :=
  (("madotsuki", 3, "system1"), x).

(** The banned account, whichever store holds the sprites. *)
Lemma addClient_rejected_no_game_data_witness :
  demo_resolveIdentity 9%nat "10.0.0.9" demo_banned_token demo_w0
  = ((demo_mallory, true), demo_w0)
  /\ demo_addClient 9%nat "10.0.0.9" demo_banned_token demo_w0
     = addClient nat unit demo_getPlayerDataFromToken
         demo_getOrCreatePlayerData demo_sprites
         9%nat "10.0.0.9" demo_banned_token demo_w0.
Proof.
  assert (Hr : demo_resolveIdentity 9%nat "10.0.0.9" demo_banned_token demo_w0
               = ((demo_mallory, true), demo_w0)) by reflexivity.
  split; [exact Hr|].
  exact (addClient_rejected_no_game_data nat unit demo_getPlayerDataFromToken
           demo_getOrCreatePlayerData demo_getPlayerGameData demo_sprites
           9%nat "10.0.0.9" demo_banned_token demo_w0 demo_mallory true demo_w0
           Hr (or_introl eq_refl)).
Defined.

(** *** Four requests from one address at once *)

Definition demo_h0 : Hub nat unit :=
  {| hub_world := demo_w0; in_flight := [] |}.

Definition demo_begin : nat -> string -> string -> Hub nat unit -> Hub nat unit :=
  begin_admission nat unit demo_getPlayerDataFromToken
    demo_getOrCreatePlayerData.

Definition demo_count := count_admission nat unit.

Definition demo_commit := commit_admission nat unit demo_getPlayerGameData.

Definition demo_conc_reachable : Hub nat unit -> Prop :=
  conc_reachable nat unit demo_getPlayerDataFromToken
    demo_getOrCreatePlayerData demo_getPlayerGameData.

Definition demo_token_b : string := "bbbbbbbbbbbbbbbbbbbbbbbbbbbbbbbb".
Definition demo_token_c : string := "cccccccccccccccccccccccccccccccc".
Definition demo_token_d : string := "dddddddddddddddddddddddddddddddd".

(** The admission of connection [n] with [token], from 10.0.0.2. *)
Definition demo_fl (n : nat) (token : string) (st : Stage) : InFlight nat :=
  {| fl_client := (demo_resolveIdentity n "10.0.0.2" token demo_w0).1.1;
     fl_ip := "10.0.0.2"; fl_stage := st |}.

(** All four are past [clients.Load] before any of them counts. *)
Definition demo_h4 : Hub nat unit :=
  demo_begin 5%nat "10.0.0.2" demo_token_d
    (demo_begin 4%nat "10.0.0.2" demo_token_c
       (demo_begin 3%nat "10.0.0.2" demo_token_b
          (demo_begin 2%nat "10.0.0.2" demo_alice_token demo_h0))).

(** All four count, and find nobody, before any of them stores. *)
Definition demo_h5 : Hub nat unit :=
  demo_count [] (demo_fl 2 demo_alice_token Loaded)
    [demo_fl 3 demo_token_b Loaded; demo_fl 4 demo_token_c Loaded;
     demo_fl 5 demo_token_d Loaded] (hub_world _ _ demo_h4).

Definition demo_h6 : Hub nat unit :=
  demo_count [demo_fl 2 demo_alice_token Counted]
    (demo_fl 3 demo_token_b Loaded)
    [demo_fl 4 demo_token_c Loaded; demo_fl 5 demo_token_d Loaded]
    (hub_world _ _ demo_h5).

Definition demo_h7 : Hub nat unit :=
  demo_count [demo_fl 2 demo_alice_token Counted;
              demo_fl 3 demo_token_b Counted]
    (demo_fl 4 demo_token_c Loaded) [demo_fl 5 demo_token_d Loaded]
    (hub_world _ _ demo_h6).

Definition demo_h8 : Hub nat unit :=
  demo_count [demo_fl 2 demo_alice_token Counted;
              demo_fl 3 demo_token_b Counted; demo_fl 4 demo_token_c Counted]
    (demo_fl 5 demo_token_d Loaded) [] (hub_world _ _ demo_h7).

(** Then all four store. *)
Definition demo_h9 : Hub nat unit :=
  demo_commit [] (demo_fl 2 demo_alice_token Counted)
    [demo_fl 3 demo_token_b Counted; demo_fl 4 demo_token_c Counted;
     demo_fl 5 demo_token_d Counted] (hub_world _ _ demo_h8).

Definition demo_h10 : Hub nat unit :=
  demo_commit [] (demo_fl 3 demo_token_b Counted)
    [demo_fl 4 demo_token_c Counted; demo_fl 5 demo_token_d Counted]
    (hub_world _ _ demo_h9).

Definition demo_h11 : Hub nat unit :=
  demo_commit [] (demo_fl 4 demo_token_c Counted)
    [demo_fl 5 demo_token_d Counted] (hub_world _ _ demo_h10).

Definition demo_h12 : Hub nat unit :=
  demo_commit [] (demo_fl 5 demo_token_d Counted) [] (hub_world _ _ demo_h11).

Lemma demo_conc_reachable_h12 : demo_conc_reachable demo_h12.
Proof.
  unfold demo_conc_reachable.
  assert (R4 : conc_reachable nat unit demo_getPlayerDataFromToken
                 demo_getOrCreatePlayerData demo_getPlayerGameData demo_h4).
  { unfold demo_h4, demo_begin.
    do 4 (eapply conc_next; [|apply conc_begin]).
    apply conc_init; reflexivity. }
  assert (R5 : conc_reachable nat unit demo_getPlayerDataFromToken
                 demo_getOrCreatePlayerData demo_getPlayerGameData demo_h5).
  { eapply conc_next; [exact R4|].
    apply conc_count_at; [vm_compute; reflexivity|reflexivity]. }
  assert (R6 : conc_reachable nat unit demo_getPlayerDataFromToken
                 demo_getOrCreatePlayerData demo_getPlayerGameData demo_h6).
  { eapply conc_next; [exact R5|].
    apply conc_count_at; [vm_compute; reflexivity|reflexivity]. }
  assert (R7 : conc_reachable nat unit demo_getPlayerDataFromToken
                 demo_getOrCreatePlayerData demo_getPlayerGameData demo_h7).
  { eapply conc_next; [exact R6|].
    apply conc_count_at; [vm_compute; reflexivity|reflexivity]. }
  assert (R8 : conc_reachable nat unit demo_getPlayerDataFromToken
                 demo_getOrCreatePlayerData demo_getPlayerGameData demo_h8).
  { eapply conc_next; [exact R7|].
    apply conc_count_at; [vm_compute; reflexivity|reflexivity]. }
  assert (R9 : conc_reachable nat unit demo_getPlayerDataFromToken
                 demo_getOrCreatePlayerData demo_getPlayerGameData demo_h9).
  { eapply conc_next; [exact R8|].
    apply conc_commit_at; [vm_compute; reflexivity|reflexivity]. }
  assert (R10 : conc_reachable nat unit demo_getPlayerDataFromToken
                  demo_getOrCreatePlayerData demo_getPlayerGameData demo_h10).
  { eapply conc_next; [exact R9|].
    apply conc_commit_at; [vm_compute; reflexivity|reflexivity]. }
  assert (R11 : conc_reachable nat unit demo_getPlayerDataFromToken
                  demo_getOrCreatePlayerData demo_getPlayerGameData demo_h11).
  { eapply conc_next; [exact R10|].
    apply conc_commit_at; [vm_compute; reflexivity|reflexivity]. }
  eapply conc_next; [exact R11|].
  apply conc_commit_at; [vm_compute; reflexivity|reflexivity].
Qed.

(** Four admissions from 10.0.0.2 that overlap: each passes its count before
    any of them stores, and all four end up registered. The limit of three
    clients for an address does not hold when admissions overlap. *)
Lemma addClient_ip_limit_overlap :
  demo_conc_reachable demo_h12
  /\ in_flight _ _ demo_h12 = []
  /\ size (clients _ _ (hub_world _ _ demo_h12)) = 4%nat
  /\ sameIpCount nat "10.0.0.2" (clients _ _ (hub_world _ _ demo_h12)) = 4
  /\ ~ sameIpCount nat "10.0.0.2" (clients _ _ (hub_world _ _ demo_h12)) <= 3.
Proof.
  split; [exact demo_conc_reachable_h12|].
  split; [vm_compute; reflexivity|].
  split; [vm_compute; reflexivity|].
  assert (E : sameIpCount nat "10.0.0.2"
                (clients _ _ (hub_world _ _ demo_h12)) = 4)
    by (vm_compute; reflexivity).
  split; [exact E|]. intros H. rewrite E in H. lia.
Qed.

(** Three clients of 10.0.0.2 admitted one after the other, and a fourth
    request. *)
Definition demo_hub3 : Hub nat unit :=
  {| hub_world := demo_w3; in_flight := [] |}.

Lemma addClient_ip_limit_no_overlap_witness :
  3 <= sameIpCount nat "10.0.0.2" (clients _ _ demo_w3)
  /\ clients _ _ (demo_addClient 5%nat "10.0.0.2" "" demo_w3).2
     = clients _ _ demo_w3
  /\ admission_count nat unit "10.0.0.2" demo_w3
     = (false, {| clients := clients _ _ demo_w3;
                  session := session _ _ demo_w3;
                  trace := trace _ _ demo_w3
                           ++ [Ev_writeErrLog nat "10.0.0.2" "session"
                                 "too many connections from ip"];
                  ext := ext _ _ demo_w3 |})
  /\ sameIpCount nat "10.0.0.2" (clients _ _ (hub_world _ _ demo_hub3)) <= 3.
Proof.
  pose proof (addClient_ip_limit_no_overlap nat unit demo_getPlayerDataFromToken
                demo_getOrCreatePlayerData demo_getPlayerGameData)
    as (H1 & H2 & H3).
  assert (Hn : 3 <= sameIpCount nat "10.0.0.2" (clients _ _ demo_w3))
    by (vm_compute; discriminate).
  split; [exact Hn|]. split; [|split].
  - exact (proj1 (H1 5%nat "10.0.0.2" "" demo_w3 Hn)).
  - exact (H2 "10.0.0.2" demo_w3 Hn).
  - exact (H3 demo_hub3
              (reachable_solo nat unit demo_getPlayerDataFromToken
                 demo_getOrCreatePlayerData demo_getPlayerGameData demo_w3
                 demo_reachable_w3) "10.0.0.2").
Defined.

(** The four overlapping admissions are filed under their own uuids. *)
Lemma conc_reachable_keyed_witness :
  demo_conc_reachable demo_h12
  /\ forall k c, clients _ _ (hub_world _ _ demo_h12) !! k = Some c ->
                 uuid _ c = k.
Proof.
  split; [exact demo_conc_reachable_h12|].
  exact (proj1 (conc_reachable_keyed nat unit demo_getPlayerDataFromToken
                  demo_getOrCreatePlayerData demo_getPlayerGameData demo_h12
                  demo_conc_reachable_h12)).
Defined.
